(** * Image annotation tool: coordinate mapping and annotation store

    A shallow embedding of [src/image_annotator.py].  The program is a
    Streamlit script: every user interaction re-executes [main] from top to
    bottom against the persistent [st.session_state]; [st.rerun()] aborts the
    current execution and schedules a new one.  One execution of the script
    is modelled as a function from the widget values of that execution and
    the session state before it to an [outcome] carrying the session state
    after it.

    Python floats are kept abstract behind the class [PyFloat], with two
    instances: [binary64] (IEEE 754 doubles, what CPython computes) and
    [exact] (rational arithmetic, the program read without rounding). *)

From Stdlib Require Import ZArith QArith Qfield Floats List String Ascii Bool Lia Lqa.
From Stdlib Require Import Decimal DecimalString DecimalPos DecimalZ.
Import ListNotations.
Open Scope Z_scope.

Set Implicit Arguments.

(** ** Numbers *)

(** The float operations the script uses: [float(int)], [*], [/] and
    [int(float)] (truncation toward zero, which raises on nan and inf). *)
Class PyFloat (F : Type) := {
  of_int : Z -> F;
  fmul : F -> F -> F;
  fdiv : F -> F -> F;
  trunc : F -> option Z
}.

(** [a / b] on two Python ints: true division, [ZeroDivisionError] ([None])
    when [b] is zero. *)
Definition truediv {F} `{PyFloat F} (a b : Z) : option F :=
  if b =? 0 then None else Some (fdiv (of_int a) (of_int b)).

(** Exact arithmetic. *)
#[export] Instance exact : PyFloat Q := {
  of_int := inject_Z;
  fmul := Qmult;
  fdiv := Qdiv;
  trunc := fun q => Some (Z.quot (Qnum q) (Zpos (Qden q)))
}.

(** IEEE 754 binary64.  [float(z)] rounds to nearest, ties to even; it is
    exact for the image sizes and slider values the script handles. *)
Definition b64_of_int (z : Z) : float :=
  SF2Prim (binary_normalize prec emax z 0 false).

Definition b64_trunc (f : float) : option Z :=
  match Prim2SF f with
  | S754_zero _ => Some 0
  | S754_finite s m e =>
      let a := match e with
               | Z0 => Zpos m
               | Zpos p => Z.shiftl (Zpos m) (Zpos p)
               | Zneg p => Z.shiftr (Zpos m) (Zpos p)
               end in
      Some (if s then - a else a)
  | S754_infinity _ => None
  | S754_nan => None
  end.

#[export] Instance binary64 : PyFloat float := {
  of_int := b64_of_int;
  fmul := PrimFloat.mul;
  fdiv := PrimFloat.div;
  trunc := b64_trunc
}.

(** ** Coordinate mapper (lines 79-88, 101-102, 139-140) *)

Section Geometry.
Context {F : Type} `{PyFloat F}.

(** Lines 79-81: [aspect_ratio = height / width];
    [display_height = int(display_width * aspect_ratio)]. *)
Definition display_size (width height display_width : Z) : option Z :=
  match truediv height width with
  | None => None
  | Some aspect_ratio => trunc (fmul (of_int display_width) aspect_ratio)
  end.

(** Lines 87-88: [scale_x = width / display_width];
    [scale_y = height / display_height]. *)
Definition scale_factors (width height display_width display_height : Z)
  : option (F * F) :=
  match truediv width display_width with
  | None => None
  | Some scale_x =>
      match truediv height display_height with
      | None => None
      | Some scale_y => Some (scale_x, scale_y)
      end
  end.

(** Lines 79-88 in sequence: the display height and the two scale factors,
    or [None] when one of the divisions raises.  ([Image.resize] on line 84
    is the imaging library's business; it does not change what follows.) *)
Definition layout (width height display_width : Z) : option (Z * F * F) :=
  match display_size width height display_width with
  | None => None
  | Some display_height =>
      match scale_factors width height display_width display_height with
      | None => None
      | Some (scale_x, scale_y) => Some (display_height, scale_x, scale_y)
      end
  end.

(** Lines 139-140: a click on the displayed image, in pixels, mapped to
    original-image coordinates. *)
Definition to_original (scale_x scale_y : F) (click_x click_y : Z) : F * F :=
  (fmul (of_int click_x) scale_x, fmul (of_int click_y) scale_y).

(** Lines 101-102: original coordinates mapped to the displayed image. *)
Definition to_display (scale_x scale_y : F) (p : F * F) : F * F :=
  (fdiv (fst p) scale_x, fdiv (snd p) scale_y).

End Geometry.

(** ** Session state (lines 15-32) *)

(** One row of the [annotations] DataFrame, columns
    [['x', 'y', 'label', 'timestamp']].  Python text is represented by its
    UTF-8 bytes. *)
Record annotation (F : Type) := {
  ann_x : F;
  ann_y : F;
  ann_label : string;
  ann_timestamp : string
}.

(** [st.session_state].  The DataFrame is the list of its rows, in index
    order. *)
Record session_state (F : Type) := {
  annotations : list (annotation F);
  image_width : Z;
  image_height : Z;
  display_width : Z;
  awaiting_label : bool;
  current_point : option (F * F)
}.

(** Lines 16-32: the values given to the keys a new session lacks. *)
Definition initial_state (F : Type) : session_state F := {|
  annotations := [];
  image_width := 0;
  image_height := 0;
  display_width := 800;
  awaiting_label := false;
  current_point := None
|}.

(** ** Widgets: what one execution of the script reads from the page *)

(** The buttons of the page.  Streamlit reports a button as pressed only in
    the execution its click triggered, so at most one is pressed. *)
Inductive button := ClearAll | SetPoint | AddAnnotation | Cancel | UndoLast.

Definition button_eqb (a b : button) : bool :=
  match a, b with
  | ClearAll, ClearAll | SetPoint, SetPoint | AddAnnotation, AddAnnotation
  | Cancel, Cancel | UndoLast, UndoLast => true
  | _, _ => false
  end.

(** What [streamlit_image_coordinates] yields (lines 131-134): the pixel
    clicked on the displayed image, nothing, or [ImportError]. *)
Inductive coordinates := Clicked (x y : Z) | NoClick | Unavailable.

Record widgets := {
  uploaded_file : option (Z * Z);   (* [image.size] of the decoded upload *)
  point_size : Z;
  display_width_slider : Z;
  clicked_coords : coordinates;
  manual_x : Z;                     (* the two [st.number_input] values *)
  manual_y : Z;
  label_input : string;             (* [st.text_input("Label")] *)
  pressed : option button;
  now : string                      (* [datetime.now().strftime(...)] *)
}.

Definition is_pressed (w : widgets) (b : button) : bool :=
  match pressed w with
  | Some b' => button_eqb b' b
  | None => false
  end.

(** The same widget values with no button pressed. *)
Definition released (w : widgets) : widgets := {|
  uploaded_file := uploaded_file w;
  point_size := point_size w;
  display_width_slider := display_width_slider w;
  clicked_coords := clicked_coords w;
  manual_x := manual_x w;
  manual_y := manual_y w;
  label_input := label_input w;
  pressed := None;
  now := now w
|}.

(** Truth value of a Python string: false exactly for the empty one. *)
Definition truthy (s : string) : bool :=
  match s with
  | EmptyString => false
  | String _ _ => true
  end.

(** ** One execution of the script *)

Inductive outcome (F : Type) :=
| Completed (st : session_state F)   (* [main] returned *)
| Rerun (st : session_state F)       (* [st.rerun()] was called *)
| Raised (st : session_state F).     (* an exception left [main] *)

Definition state_of {F} (o : outcome F) : session_state F :=
  match o with
  | Completed st | Rerun st | Raised st => st
  end.

Definition is_raised {F} (o : outcome F) : bool :=
  match o with
  | Raised _ => true
  | _ => false
  end.

(** A piece of the script: it reads and writes the session state and either
    goes on with a value or leaves the execution. *)
Inductive step (F A : Type) :=
| Next (a : A) (st : session_state F)
| Stop (o : outcome F).
Arguments Stop {F A} o.

Definition script (F A : Type) := session_state F -> step F A.

Definition ret {F A} (a : A) : script F A := fun st => Next a st.

Definition bind {F A B} (m : script F A) (k : A -> script F B) : script F B :=
  fun st =>
    match m st with
    | Next a st' => k a st'
    | Stop o => Stop o
    end.

Notation "x <- m ;; k" := (bind m (fun x => k))
  (at level 61, m at next level, right associativity).
Notation "m ;; k" := (bind m (fun _ => k))
  (at level 61, right associativity).

Definition get {F A} (key : session_state F -> A) : script F A :=
  fun st => Next (key st) st.

Definition rerun {F} : script F unit := fun st => Stop (Rerun st).

Definition raise {F A} : script F A := fun st => Stop (Raised st).

Definition when {F} (b : bool) (m : script F unit) : script F unit :=
  if b then m else ret tt.

Definition run {F} (m : script F unit) (st : session_state F) : outcome F :=
  match m st with
  | Next _ st' => Completed st'
  | Stop o => o
  end.

Section Script.
Context {F : Type} `{PyFloat F}.

Definition set_annotations (v : list (annotation F)) : script F unit :=
  fun st => Next tt {|
    annotations := v;
    image_width := image_width st;
    image_height := image_height st;
    display_width := display_width st;
    awaiting_label := awaiting_label st;
    current_point := current_point st |}.

Definition set_image_size (width height : Z) : script F unit :=
  fun st => Next tt {|
    annotations := annotations st;
    image_width := width;
    image_height := height;
    display_width := display_width st;
    awaiting_label := awaiting_label st;
    current_point := current_point st |}.

Definition set_display_width (v : Z) : script F unit :=
  fun st => Next tt {|
    annotations := annotations st;
    image_width := image_width st;
    image_height := image_height st;
    display_width := v;
    awaiting_label := awaiting_label st;
    current_point := current_point st |}.

Definition set_awaiting_label (v : bool) : script F unit :=
  fun st => Next tt {|
    annotations := annotations st;
    image_width := image_width st;
    image_height := image_height st;
    display_width := display_width st;
    awaiting_label := v;
    current_point := current_point st |}.

Definition set_current_point (v : option (F * F)) : script F unit :=
  fun st => Next tt {|
    annotations := annotations st;
    image_width := image_width st;
    image_height := image_height st;
    display_width := display_width st;
    awaiting_label := awaiting_label st;
    current_point := v |}.

(** *** Annotation store *)

(** Lines 58-61: the body of "Clear All Annotations". *)
Definition clear_all : script F unit :=
  set_annotations [] ;;
  set_awaiting_label false ;;
  set_current_point None ;;
  rerun.

(** Lines 184-189: the one-row DataFrame of a new annotation. *)
Definition new_row (x y : F) (label timestamp : string) : list (annotation F) :=
  [ {| ann_x := x; ann_y := y; ann_label := label; ann_timestamp := timestamp |} ].

(** Lines 182-203: the body of a confirmed submission. *)
Definition add_annotation (x y : F) (label timestamp : string) : script F unit :=
  anns <- get (@annotations F) ;;
  (if (List.length anns =? 0)%nat
   then set_annotations (new_row x y label timestamp)
   else set_annotations (anns ++ new_row x y label timestamp)) ;;
  set_current_point None ;;
  set_awaiting_label false ;;
  rerun.

(** Lines 205-208: the body of "Cancel". *)
Definition cancel_point : script F unit :=
  set_current_point None ;;
  set_awaiting_label false ;;
  rerun.

(** Lines 222-224: the body of "Undo Last Annotation"; [iloc[:-1]] is
    [removelast]. *)
Definition remove_last : script F unit :=
  anns <- get (@annotations F) ;;
  when (0 <? List.length anns)%nat
    (set_annotations (removelast anns) ;; rerun).

(** *** Overlay (lines 95-127) *)

(** Where each stored annotation is drawn on the displayed image, with its
    label, in drawing order.  The pass reads the session state only. *)
Definition overlay (scale_x scale_y : F) (anns : list (annotation F))
  : list (F * F * string) :=
  map (fun row => (to_display scale_x scale_y (ann_x row, ann_y row), ann_label row))
      anns.

(** *** The page *)

(** Lines 44-61: the sidebar.  The download button (lines 47-54) changes no
    state. *)
Definition sidebar (w : widgets) : script F unit :=
  set_display_width (display_width_slider w) ;;
  anns <- get (@annotations F) ;;
  when (0 <? List.length anns)%nat
    (when (is_pressed w ClearAll) clear_all).

(** Lines 129-165: the click on the image, or the manual entry when the
    coordinate component is missing. *)
Definition select_point (w : widgets) (scale_x scale_y : F) : script F unit :=
  match clicked_coords w with
  | Clicked click_x click_y =>
      awaiting <- get (@awaiting_label F) ;;
      when (negb awaiting)
        (set_current_point (Some (to_original scale_x scale_y click_x click_y)) ;;
         set_awaiting_label true ;;
         rerun)
  | NoClick => ret tt
  | Unavailable =>
      when (is_pressed w SetPoint)
        (set_current_point (Some (of_int (manual_x w), of_int (manual_y w))) ;;
         set_awaiting_label true ;;
         rerun)
  end.

(** Lines 171-210: the label form, shown for a pending point. *)
Definition annotation_form (w : widgets) : script F unit :=
  awaiting <- get (@awaiting_label F) ;;
  point <- get (@current_point F) ;;
  match awaiting, point with
  | true, Some (x, y) =>
      when (is_pressed w AddAnnotation && truthy (label_input w))
        (add_annotation x y (label_input w) (now w)) ;;
      when (is_pressed w Cancel) cancel_point
  | _, _ => ret tt
  end.

(** Lines 213-224: the table of annotations and its undo button. *)
Definition annotation_table (w : widgets) : script F unit :=
  anns <- get (@annotations F) ;;
  when (negb (List.length anns =? 0)%nat)
    (when (is_pressed w UndoLast) remove_last).

(** Lines 64-224: the main area for an uploaded image of the given size. *)
Definition main_area (w : widgets) (width height : Z) : script F unit :=
  set_image_size width height ;;
  display_width <- get (@display_width F) ;;
  match layout width height display_width with
  | None => raise
  | Some (_, scale_x, scale_y) =>
      select_point w scale_x scale_y ;;
      annotation_form w ;;
      annotation_table w
  end.

(** Lines 10-226. *)
Definition main (w : widgets) : session_state F -> outcome F :=
  run (sidebar w ;;
       match uploaded_file w with
       | Some (width, height) => main_area w width height
       | None => ret tt
       end).

(** Whether the label form is on the page (line 171). *)
Definition form_shown (st : session_state F) : bool :=
  awaiting_label st &&
  match current_point st with
  | Some _ => true
  | None => false
  end.

End Script.

(** ** CSV export (lines 228-230) *)

Definition comma : ascii := ","%char.
Definition dquote : ascii := "034"%char.
Definition LF : ascii := "010"%char.
Definition CR : ascii := "013"%char.

(** Whether the character [c] occurs in [s]. *)
Fixpoint has (c : ascii) (s : string) : bool :=
  match s with
  | EmptyString => false
  | String a s' => Ascii.eqb a c || has c s'
  end.

(** The [x] and [y] columns of the DataFrame have one dtype [F]: float64
    once a point came from a click (lines 139-140 multiply by a float, and
    [pd.concat] turns an int64 column into float64 as soon as a float row is
    appended), int64 while every point came from the manual entry.  [repr]
    is how [to_csv] writes a number of such a column, on one line, and
    [read_number] how a reader of the file gets the number back. *)
Class Repr (F : Type) := {
  repr : F -> string;
  read_number : string -> option F;
  read_repr : forall v, read_number (repr v) = Some v;
  repr_line : forall v, has CR (repr v) = false
}.

(** *** int64 columns *)

(** Integers are written in decimal. *)
Definition repr_int (z : Z) : string := NilZero.string_of_int (Z.to_int z).

Definition read_int (s : string) : option Z :=
  option_map Z.of_int (NilZero.int_of_string s).

(** *** float64 columns *)

(** Without [float_format], [to_csv] writes a float as [repr] does: the
    shortest decimal text that reads back as the same float (the nearest to
    the float's value among the shortest), with the decimal point placed as
    [float.__repr__] places it; nan (the missing value) is written as the
    empty text. *)

(** [m * 2^e * 10^k] as a fraction. *)
Definition scaled (m : positive) (e k : Z) : Z * Z :=
  (Zpos m * (if 0 <=? e then 2 ^ e else 1) * (if 0 <=? k then 10 ^ k else 1),
   (if 0 <=? e then 1 else 2 ^ (- e)) * (if 0 <=? k then 1 else 10 ^ (- k))).

(** [m * 2^e < 10^p]. *)
Definition below_power_of_ten (m : positive) (e p : Z) : bool :=
  let '(num, den) := scaled m e (- p) in num <? den.

(** The position of the decimal point, the [p] with
    [10^(p-1) <= m * 2^e < 10^p], searched from an estimate. *)
Fixpoint settle (fuel : nat) (m : positive) (e p : Z) : Z :=
  match fuel with
  | O => p
  | S fuel' =>
      if below_power_of_ten m e (p - 1) then settle fuel' m e (p - 1)
      else if below_power_of_ten m e p then p
      else settle fuel' m e (p + 1)
  end.

Definition decimal_point (m : positive) (e : Z) : Z :=
  settle 4 m e ((Z.log2 (Zpos m) + e) * 30103 / 100000 + 1).

(** The decimal numbers [c * 10^x] of [n] significant digits on either side
    of [m * 2^e], the nearer one first (the even one on a tie); one number
    when [m * 2^e] has no more than [n] digits itself. *)
Definition neighbours (m : positive) (e p n : Z) : list (Z * Z) :=
  let '(num, den) := scaled m e (n - p) in
  let lo := num / den in
  let r := num mod den in
  if r =? 0 then [(lo, p - n)]
  else
    match 2 * r ?= den with
    | Lt => [(lo, p - n); (lo + 1, p - n)]
    | Gt => [(lo + 1, p - n); (lo, p - n)]
    | Eq => if Z.even lo then [(lo, p - n); (lo + 1, p - n)]
            else [(lo + 1, p - n); (lo, p - n)]
    end.

Fixpoint strip_zeros (fuel : nat) (c x : Z) : Z * Z :=
  match fuel with
  | O => (c, x)
  | S fuel' =>
      if (0 <? c) && (c mod 10 =? 0) then strip_zeros fuel' (c / 10) (x + 1)
      else (c, x)
  end.

Fixpoint zeros (n : nat) : string :=
  match n with
  | O => EmptyString
  | S n' => String "0" (zeros n')
  end.

(** The exponent of the exponent notation: a sign and at least two
    digits. *)
Definition exponent_text (e : Z) : string :=
  ((if (e <? 0)%Z then "e-" else "e+") ++
   (if (Z.abs e <? 10)%Z then "0" else EmptyString) ++
   repr_int (Z.abs e))%string.

(** The digits with the decimal point after the first [decpt] of them;
    exponent notation when [decpt <= -4] or [decpt > 16], and [.0] after a
    whole number. *)
Definition format_short (digits : string) (decpt : Z) : string :=
  let n := Z.of_nat (String.length digits) in
  if (decpt <=? -4) || (16 <? decpt) then
    match digits with
    | EmptyString => EmptyString
    | String d EmptyString => String d (exponent_text (decpt - 1))
    | String d rest =>
        String d ("." ++ rest ++ exponent_text (decpt - 1))%string
    end
  else if decpt <=? 0 then
    ("0." ++ zeros (Z.to_nat (- decpt)) ++ digits)%string
  else if n <=? decpt then
    (digits ++ zeros (Z.to_nat (decpt - n)) ++ ".0")%string
  else
    (substring 0 (Z.to_nat decpt) digits ++ "." ++
     substring (Z.to_nat decpt) (Z.to_nat (n - decpt)) digits)%string.

Definition decimal_text (neg : bool) (cx : Z * Z) : string :=
  let '(c, x) := strip_zeros 20 (fst cx) (snd cx) in
  let digits := repr_int c in
  ((if neg then "-" else EmptyString) ++
   format_short digits (Z.of_nat (String.length digits) + x))%string.

(** The texts to try for [(-1)^neg * m * 2^e]: for 1, 2, ... 17 significant
    digits, its neighbours of that many digits. *)
Definition short_texts (neg : bool) (m : positive) (e : Z) : list string :=
  let p := decimal_point m e in
  flat_map (fun n => map (decimal_text neg) (neighbours m e p (Z.of_nat n)))
           (seq 1 17).

(** The value written out in binary: mantissa, [p], exponent. *)
Definition binary_text (neg : bool) (m : positive) (e : Z) : string :=
  (repr_int (if neg then Zneg m else Zpos m) ++ String "p" (repr_int e))%string.

Definition digit_value (c : ascii) : option Z :=
  let n := Z.of_nat (nat_of_ascii c) in
  if (48 <=? n) && (n <=? 57) then Some (n - 48) else None.

(** The digits [s] starts with, appended to [acc]; how many they are; the
    rest of [s]. *)
Fixpoint read_digits (s : string) (acc count : Z) : Z * Z * string :=
  match s with
  | EmptyString => (acc, count, s)
  | String c s' =>
      match digit_value c with
      | Some d => read_digits s' (10 * acc + d) (count + 1)
      | None => (acc, count, s)
      end
  end.

Definition read_sign (s : string) : bool * string :=
  match s with
  | String c s' =>
      if Ascii.eqb c "-" then (true, s')
      else if Ascii.eqb c "+" then (false, s')
      else (false, s)
  | EmptyString => (false, s)
  end.

Definition read_exponent (s : string) : option Z :=
  match s with
  | EmptyString => Some 0
  | String c s' =>
      if Ascii.eqb c "e" || Ascii.eqb c "E" then
        let '(neg, s1) := read_sign s' in
        let '(v, k, rest) := read_digits s1 0 0 in
        match rest with
        | EmptyString => if 0 <? k then Some (if neg then - v else v) else None
        | String _ _ => None
        end
      else None
  end.

(** Sign, digits and power of ten of a decimal text. *)
Definition read_decimal (s : string) : option (bool * Z * Z) :=
  let '(neg, s0) := read_sign s in
  let '(i, ki, s1) := read_digits s0 0 0 in
  let '(v, kf, s2) :=
    match s1 with
    | String c s1' =>
        if Ascii.eqb c "." then read_digits s1' i 0 else (i, 0, s1)
    | EmptyString => (i, 0, s1)
    end in
  if 0 <? ki + kf then
    match read_exponent s2 with
    | Some x => Some (neg, v, x - kf)
    | None => None
    end
  else None.

(** [(-1)^neg * digits * 10^x] rounded to the nearest float, ties to
    even. *)
Definition round_decimal (neg : bool) (digits x : Z) : float :=
  match digits with
  | Zpos d =>
      let num := if 0 <=? x then (d * Z.to_pos (10 ^ x))%positive else d in
      let den := if 0 <=? x then 1%positive else Z.to_pos (10 ^ (- x)) in
      SF2Prim (SFdiv prec emax (S754_finite neg num 0) (S754_finite false den 0))
  | _ => SF2Prim (S754_zero neg)
  end.

Fixpoint split_at (c : ascii) (s : string) : option (string * string) :=
  match s with
  | EmptyString => None
  | String a s' =>
      if Ascii.eqb a c then Some (EmptyString, s')
      else match split_at c s' with
           | Some (l, r) => Some (String a l, r)
           | None => None
           end
  end.

Definition read_binary (mantissa exponent : string) : option float :=
  match read_int mantissa, read_int exponent with
  | Some (Zpos m), Some e => Some (SF2Prim (S754_finite false m e))
  | Some (Zneg m), Some e => Some (SF2Prim (S754_finite true m e))
  | _, _ => None
  end.

(** Modelled from the spec: reading a number of a float column: a decimal
    text, correctly rounded as [float()] does; the empty text is the missing
    value. *)
Definition read_float (s : string) : option float :=
  match split_at "p" s with
  | Some (mantissa, exponent) => read_binary mantissa exponent
  | None =>
      if String.eqb s EmptyString || String.eqb s "nan" then Some nan
      else if String.eqb s "inf" then Some infinity
      else if String.eqb s "-inf" then Some neg_infinity
      else
        match read_decimal s with
        | Some (neg, digits, x) => Some (round_decimal neg digits x)
        | None => None
        end
  end.

Definition reads_as (f : float) (s : string) : bool :=
  match read_float s with
  | Some g => Leibniz.eqb g f
  | None => false
  end.

(** The first of the short texts that reads back as [f].  Seventeen
    significant digits tell any two binary64 numbers apart, so there is
    always one; that is not proved here, and a float without one would be
    written out in binary. *)
Definition repr_float (f : float) : string :=
  match Prim2SF f with
  | S754_nan => EmptyString
  | S754_infinity neg => if neg then "-inf" else "inf"
  | S754_zero neg => if neg then "-0.0" else "0.0"
  | S754_finite neg m e =>
      match find (reads_as f) (short_texts neg m e) with
      | Some s => s
      | None => binary_text neg m e
      end
  end.

(** *** The writer *)

(** [csv.QUOTE_MINIMAL]: a field is quoted when it holds the delimiter, the
    quote character or a character of the line terminator.  [to_csv] passes
    [os.linesep], a line feed, as the line terminator, so a carriage return
    alone does not make a field quoted. *)
Definition special (c : ascii) : bool :=
  Ascii.eqb c comma || Ascii.eqb c dquote || Ascii.eqb c LF.

Fixpoint needs_quotes (s : string) : bool :=
  match s with
  | EmptyString => false
  | String c s' => special c || needs_quotes s'
  end.

(** A field that is written quoted, or holds no carriage return. *)
Definition readable (field : string) : bool :=
  needs_quotes field || negb (has CR field).

(** [doublequote=True]: a quote character inside a quoted field is written
    twice. *)
Fixpoint double_quotes (s : string) : string :=
  match s with
  | EmptyString => EmptyString
  | String c s' =>
      if Ascii.eqb c dquote
      then String dquote (String dquote (double_quotes s'))
      else String c (double_quotes s')
  end.

Definition write_field (s : string) : string :=
  if needs_quotes s
  then String dquote (double_quotes s ++ String dquote EmptyString)%string
  else s.

(** One line of the file: the fields separated by commas, then a line
    feed. *)
Fixpoint write_record (fields : list string) : string :=
  match fields with
  | [] => String LF EmptyString
  | [f] => (write_field f ++ String LF EmptyString)%string
  | f :: fs => (write_field f ++ String comma (write_record fs))%string
  end.

(** The DataFrame's columns (line 17 and lines 184-189). *)
Definition columns : list string :=
  ["x"; "y"; "label"; "timestamp"]%string.

Section Writing.
Context {F : Type} `{Repr F}.

Definition row_fields (row : annotation F) : list string :=
  [repr (ann_x row); repr (ann_y row); ann_label row; ann_timestamp row].

(** [df.to_csv(index=False)]: the header line, then one line per row, the
    numbers written as the dtype of their column has them. *)
Definition to_csv (df : list (annotation F)) : string :=
  (write_record columns ++
   fold_right (fun row rest => write_record (row_fields row) ++ rest)
              EmptyString df)%string.

(** Line 230: [df.to_csv(index=False).encode('utf-8')]. *)
Definition convert_df_to_csv (df : list (annotation F)) : list Byte.byte :=
  list_byte_of_string (to_csv df).

End Writing.

(** *** Reading the file back *)

Inductive reader_state :=
  StartRecord | AfterCR | StartField | InField | InQuoted | AfterQuote.

(** The three ways a character moves the reader on: it belongs to the
    field being read, it ends that field, or it ends the record.  The
    records are those from the reader's position on: the first one is the
    record being read, and its first field the field being read. *)
Definition literal (c : ascii) (records : list (list string))
  : list (list string) :=
  match records with
  | (f :: r) :: rs => (String c f :: r) :: rs
  | _ => records
  end.

Definition end_field (records : list (list string)) : list (list string) :=
  match records with
  | r :: rs => (EmptyString :: r) :: rs
  | [] => []
  end.

Definition end_record (rest : list (list string)) : list (list string) :=
  [EmptyString] :: rest.

(** Modelled from the spec: the repository has no CSV reader; "parsing" the
    exported file is read as what Python's [csv.reader] does with the text:
    fields separated by commas, double-quote quoting with doubled quotes,
    and a record ended by a line feed, a carriage return or both, outside
    quotes. *)
Fixpoint read_records (q : reader_state) (s : string) : list (list string) :=
  match s with
  | EmptyString =>
      match q with
      | StartRecord | AfterCR => []
      | _ => [[EmptyString]]
      end
  | String c s' =>
      match q with
      | StartRecord =>
          if Ascii.eqb c LF then [] :: read_records StartRecord s'
          else if Ascii.eqb c CR then [] :: read_records AfterCR s'
          else if Ascii.eqb c dquote then read_records InQuoted s'
          else if Ascii.eqb c comma then end_field (read_records StartField s')
          else literal c (read_records InField s')
      | AfterCR =>
          if Ascii.eqb c LF then read_records StartRecord s'
          else if Ascii.eqb c CR then [] :: read_records AfterCR s'
          else if Ascii.eqb c dquote then read_records InQuoted s'
          else if Ascii.eqb c comma then end_field (read_records StartField s')
          else literal c (read_records InField s')
      | StartField =>
          if Ascii.eqb c dquote then read_records InQuoted s'
          else if Ascii.eqb c comma then end_field (read_records StartField s')
          else if Ascii.eqb c LF then end_record (read_records StartRecord s')
          else if Ascii.eqb c CR then end_record (read_records AfterCR s')
          else literal c (read_records InField s')
      | InField =>
          if Ascii.eqb c comma then end_field (read_records StartField s')
          else if Ascii.eqb c LF then end_record (read_records StartRecord s')
          else if Ascii.eqb c CR then end_record (read_records AfterCR s')
          else literal c (read_records InField s')
      | InQuoted =>
          if Ascii.eqb c dquote then read_records AfterQuote s'
          else literal c (read_records InQuoted s')
      | AfterQuote =>
          if Ascii.eqb c dquote then literal c (read_records InQuoted s')
          else if Ascii.eqb c comma then end_field (read_records StartField s')
          else if Ascii.eqb c LF then end_record (read_records StartRecord s')
          else if Ascii.eqb c CR then end_record (read_records AfterCR s')
          else literal c (read_records InField s')
      end
  end.

(** Modelled from the spec: the records of a CSV text. *)
Definition read_csv (s : string) : list (list string) :=
  read_records StartRecord s.

Section Reading.
Context {F : Type} `{Repr F}.

(** Modelled from the spec: the [(x, y, label)] triple of a record of four
    fields. *)
Definition read_triple (record : list string) : option (F * F * string) :=
  match record with
  | [fx; fy; label; _] =>
      match read_number fx, read_number fy with
      | Some x, Some y => Some (x, y, label)
      | _, _ => None
      end
  | _ => None
  end.

Fixpoint read_triples (records : list (list string))
  : option (list (F * F * string)) :=
  match records with
  | [] => Some []
  | r :: rs =>
      match read_triple r, read_triples rs with
      | Some t, Some ts => Some (t :: ts)
      | _, _ => None
      end
  end.

(** Modelled from the spec: parsing an exported file: decode it, check the
    header, read one triple per record. *)
Definition parse_export (file : list Byte.byte)
  : option (list (F * F * string)) :=
  match read_csv (string_of_list_byte file) with
  | header :: records =>
      if list_eq_dec string_dec header columns
      then read_triples records
      else None
  | [] => None
  end.

End Reading.

(** ** Scenarios *)

(** An 800x600 upload shown 400 pixels wide, nothing clicked or pressed. *)
Definition page_800x600 : widgets := {|
  uploaded_file := Some (800, 600);
  point_size := 15;
  display_width_slider := 400;
  clicked_coords := NoClick;
  manual_x := 400;
  manual_y := 300;
  label_input := EmptyString;
  pressed := None;
  now := "2024-01-01 12:00:00"
|}.

(** The page [w] after a click on the displayed image. *)
Definition click (w : widgets) (x y : Z) : widgets := {|
  uploaded_file := uploaded_file w;
  point_size := point_size w;
  display_width_slider := display_width_slider w;
  clicked_coords := Clicked x y;
  manual_x := manual_x w;
  manual_y := manual_y w;
  label_input := label_input w;
  pressed := None;
  now := now w
|}.

(** The page [w] with button [b] pressed and [label] in the text box. *)
Definition press (w : widgets) (b : button) (label : string) : widgets := {|
  uploaded_file := uploaded_file w;
  point_size := point_size w;
  display_width_slider := display_width_slider w;
  clicked_coords := clicked_coords w;
  manual_x := manual_x w;
  manual_y := manual_y w;
  label_input := label;
  pressed := Some b;
  now := now w
|}.

(** A 401x1 upload shown 400 pixels wide. *)
Definition page_401x1 : widgets := {|
  uploaded_file := Some (401, 1);
  point_size := 15;
  display_width_slider := 400;
  clicked_coords := NoClick;
  manual_x := 200;
  manual_y := 0;
  label_input := EmptyString;
  pressed := None;
  now := "2024-01-01 12:00:00"
|}.

(** A 412x1 upload shown 412 pixels wide. *)
Definition page_412x1 : widgets := {|
  uploaded_file := Some (412, 1);
  point_size := 15;
  display_width_slider := 412;
  clicked_coords := NoClick;
  manual_x := 200;
  manual_y := 0;
  label_input := EmptyString;
  pressed := None;
  now := "2024-01-01 12:00:00"
|}.

(** An 813x600 upload shown 400 pixels wide: the displayed image is 400
    by 295 pixels. *)
Definition page_813x600 : widgets := {|
  uploaded_file := Some (813, 600);
  point_size := 15;
  display_width_slider := 400;
  clicked_coords := NoClick;
  manual_x := 406;
  manual_y := 300;
  label_input := EmptyString;
  pressed := None;
  now := "2024-01-01 12:00:00"
|}.

(** A 100x100 upload shown 400 pixels wide. *)
Definition page_100x100 : widgets := {|
  uploaded_file := Some (100, 100);
  point_size := 15;
  display_width_slider := 400;
  clicked_coords := NoClick;
  manual_x := 50;
  manual_y := 50;
  label_input := EmptyString;
  pressed := None;
  now := "2024-01-01 12:00:00"
|}.

(** The executions of a session one after the other: each starts from the
    session state the one before left. *)
Definition session {F} `{PyFloat F} (ws : list widgets) (st : session_state F)
  : session_state F :=
  fold_left (fun st w => state_of (main w st)) ws st.

(** Three points clicked and labelled, one after the other. *)
Definition three_adds : list widgets :=
  [ click page_800x600 100 100; press page_800x600 AddAnnotation "first";
    click page_800x600 50 60; press page_800x600 AddAnnotation "second";
    click page_800x600 10 20; press page_800x600 AddAnnotation "third" ]%string.

(** A session with one annotation stored and a second point pending. *)
Definition one_stored_one_pending : session_state float :=
  session [ click page_800x600 100 100;
            press page_800x600 AddAnnotation "first";
            click page_800x600 50 60 ]%string
          (initial_state float).

(** The same session in exact arithmetic. *)
Definition one_stored_one_pending_exact : session_state Q :=
  session [ click page_800x600 100 100;
            press page_800x600 AddAnnotation "first";
            click page_800x600 50 60 ]%string
          (initial_state Q).

(** A click on the right edge of the displayed 813x600 image, labelled. *)
Definition edge_click : list widgets :=
  [ click page_813x600 400 100;
    press page_813x600 AddAnnotation "edge" ]%string.

(** A point near the corner of the 800x600 image, labelled; then the
    upload is replaced by the 100x100 image. *)
Definition replaced_upload : list widgets :=
  [ click page_800x600 399 299;
    press page_800x600 AddAnnotation "corner";
    page_100x100 ]%string.

(** Two points on the 813x600 image, the second label with a comma. *)
Definition labelled_points : list widgets :=
  [ click page_813x600 400 100;
    press page_813x600 AddAnnotation "corner";
    click page_813x600 12 34;
    press page_813x600 AddAnnotation "door, left" ]%string.

(** A point labelled with a text that holds a carriage return. *)
Definition carriage_return_label : list widgets :=
  [ click page_800x600 100 100;
    press page_800x600 AddAnnotation (String "a" (String CR "b")) ]%string.

(** ** Predicates used in the statements *)

(** The page shows an image: one is uploaded and lines 79-88 go through. *)
Definition shows_image {F} `{PyFloat F} (w : widgets) : bool :=
  match uploaded_file w with
  | Some (width, height) =>
      match layout width height (display_width_slider w) with
      | Some _ => true
      | None => false
      end
  | None => false
  end.

(** A point in original coordinates lies on the image. *)
Definition in_image (width height : Z) (p : Q * Q) : Prop :=
  (0 <= fst p <= inject_Z width)%Q /\ (0 <= snd p <= inject_Z height)%Q.

(** Every stored annotation, and the pending point if there is one, lies on
    the image whose size the session state records. *)
Definition within_image (st : session_state Q) : Prop :=
  Forall (fun row => in_image (image_width st) (image_height st)
                              (ann_x row, ann_y row))
         (annotations st) /\
  (forall p, current_point st = Some p ->
             in_image (image_width st) (image_height st) p).

(** Every stored annotation and the pending point, if there is one, satisfy
    [P]. *)
Definition points_satisfy {F} (P : F * F -> Prop) (st : session_state F)
  : Prop :=
  Forall (fun row => P (ann_x row, ann_y row)) (annotations st) /\
  (forall p, current_point st = Some p -> P p).

(** The point that the page can make pending satisfies [P]: the click
    mapped by lines 139-140, or the manual entry of lines 158-163. *)
Definition entry_satisfies {F} `{PyFloat F} (P : F * F -> Prop) (w : widgets)
  : Prop :=
  match uploaded_file w with
  | None => True
  | Some (width, height) =>
      match clicked_coords w with
      | Clicked click_x click_y =>
          forall display_height (scale_x scale_y : F),
            layout width height (display_width_slider w)
            = Some (display_height, scale_x, scale_y) ->
            P (to_original scale_x scale_y click_x click_y)
      | NoClick => True
      | Unavailable => P (of_int (manual_x w), of_int (manual_y w))
      end
  end.

(** A binary64 point lies on the image, by the float comparisons. *)
Definition float_in_image (width height : Z) (p : float * float) : Prop :=
  PrimFloat.leb (of_int 0) (fst p) = true /\
  PrimFloat.leb (fst p) (of_int width) = true /\
  PrimFloat.leb (of_int 0) (snd p) = true /\
  PrimFloat.leb (snd p) (of_int height) = true.

(** What the widgets promise for an execution: the upload has a positive
    size and is the image the session already works on (or the session holds
    no point yet), a click lies on the displayed image, and the two number
    inputs respect their [min_value] and [max_value] (lines 158-160). *)
Definition expected_page (w : widgets) (st : session_state Q) : Prop :=
  match uploaded_file w with
  | None => True
  | Some (width, height) =>
      0 < width /\ 0 < height /\
      (image_width st = width /\ image_height st = height \/
       annotations st = [] /\ current_point st = None) /\
      (forall click_x click_y display_height (scale_x scale_y : Q),
          clicked_coords w = Clicked click_x click_y ->
          layout width height (display_width_slider w)
          = Some (display_height, scale_x, scale_y) ->
          0 <= click_x <= display_width_slider w /\
          0 <= click_y <= display_height) /\
      0 <= manual_x w <= width /\ 0 <= manual_y w <= height
  end.

(** [f] put in front of the field being read. *)
Definition prefix_field (f : string) (records : list (list string))
  : list (list string) :=
  match records with
  | (g :: r) :: rs => ((f ++ g)%string :: r) :: rs
  | _ => records
  end.

(** The text goes on with the end of a field. *)
Definition at_field_end (k : string) : Prop :=
  match k with
  | EmptyString => True
  | String c _ => c = comma \/ c = LF
  end.

(** The labels and timestamps of a DataFrame are [readable]. *)
Definition readable_rows {F} (df : list (annotation F)) : Prop :=
  Forall (fun row => readable (ann_label row) = true /\
                     readable (ann_timestamp row) = true) df.

(** ** Predicates on executions and sessions *)

(** The two keys of the pending point agree: [awaiting_label] is set
    exactly when [current_point] holds a point. *)
Definition pending_consistent {F} (st : session_state F) : Prop :=
  awaiting_label st = match current_point st with
                      | Some _ => true
                      | None => false
                      end.

(** No stored annotation has an empty label. *)
Definition labelled {F} (st : session_state F) : Prop :=
  Forall (fun row => truthy (ann_label row) = true) (annotations st).

(** Lines 47 and 57: the clear button is on the page and pressed. *)
Definition clear_fires {F} (w : widgets) (st : session_state F) : bool :=
  (0 <? List.length (annotations st))%nat && is_pressed w ClearAll.

(** An image is uploaded and lines 79-88 raise for it. *)
Definition layout_fails {F} `{PyFloat F} (w : widgets) : bool :=
  match uploaded_file w with
  | Some (width, height) =>
      match layout width height (display_width_slider w) with
      | Some _ => false
      | None => true
      end
  | None => false
  end.

(** The same widget values with nothing clicked on the image. *)
Definition without_click (w : widgets) : widgets := {|
  uploaded_file := uploaded_file w;
  point_size := point_size w;
  display_width_slider := display_width_slider w;
  clicked_coords := NoClick;
  manual_x := manual_x w;
  manual_y := manual_y w;
  label_input := label_input w;
  pressed := pressed w;
  now := now w
|}.

(** The 800x600 page without the coordinate component (lines 147-165),
    "Set Point" pressed on the manual entry (400, 300). *)
Definition manual_page : widgets := {|
  uploaded_file := Some (800, 600);
  point_size := 15;
  display_width_slider := 400;
  clicked_coords := Unavailable;
  manual_x := 400;
  manual_y := 300;
  label_input := EmptyString;
  pressed := Some SetPoint;
  now := "2024-01-01 12:00:00"
|}.

(** A page with no file uploaded, the submit button pressed. *)
Definition empty_page : widgets := {|
  uploaded_file := None;
  point_size := 15;
  display_width_slider := 1000;
  clicked_coords := NoClick;
  manual_x := 0;
  manual_y := 0;
  label_input := "label";
  pressed := Some AddAnnotation;
  now := "2024-01-01 12:00:00"
|}.

(** * Properties *)

Unset Implicit Arguments.

(** ** Arithmetic of the two instances *)

Lemma inject_Z_nonzero (z : Z) : z <> 0 -> ~ (inject_Z z == 0)%Q.
Proof.
  intros Hz E. apply Hz. unfold Qeq in E. simpl in E. lia.
Qed.

Section GeometryFacts.
Context {F : Type} `{PyFloat F}.

Lemma truediv_some (a b : Z) (q : F) :
  truediv a b = Some q -> b <> 0 /\ q = fdiv (of_int a) (of_int b).
Proof.
  unfold truediv. destruct (Z.eqb_spec b 0) as [->|Hb]; [discriminate|].
  intros [= <-]. split; [assumption|reflexivity].
Qed.

Lemma truediv_defined (a b : Z) :
  b <> 0 -> truediv a b = Some (fdiv (of_int a) (of_int b)).
Proof.
  intros Hb. unfold truediv.
  destruct (Z.eqb_spec b 0); [contradiction|reflexivity].
Qed.

Lemma scale_factors_some (w h dw dh : Z) (sx sy : F) :
  scale_factors w h dw dh = Some (sx, sy) ->
  dw <> 0 /\ dh <> 0 /\
  sx = fdiv (of_int w) (of_int dw) /\ sy = fdiv (of_int h) (of_int dh).
Proof.
  unfold scale_factors.
  destruct (truediv w dw) as [qx|] eqn:Ex; [|discriminate].
  destruct (truediv h dh) as [qy|] eqn:Ey; [|discriminate].
  intros [= <- <-].
  apply truediv_some in Ex, Ey. tauto.
Qed.

Lemma layout_some (w h dw dh : Z) (sx sy : F) :
  layout w h dw = Some (dh, sx, sy) ->
  display_size w h dw = Some dh /\ scale_factors w h dw dh = Some (sx, sy).
Proof.
  unfold layout.
  destruct (display_size w h dw) as [d|]; [|discriminate].
  destruct (scale_factors w h dw d) as [[qx qy]|] eqn:E; [|discriminate].
  intros [= <- <- <-]. split; [reflexivity|assumption].
Qed.

End GeometryFacts.

(** ** C1, C2: the coordinate mapper *)

(** C1 (as amended): for an uploaded image of positive width and height, a
    positive display width and a positive display height (the one line 81
    computed for them), the script's scale factors are
    [scale_x = width / display_width] and
    [scale_y = height / display_height]; a click is mapped to
    [(click_x * scale_x, click_y * scale_y)], a stored annotation is drawn
    at [(ann_x / scale_x, ann_y / scale_y)]; in exact arithmetic mapping a
    click to original coordinates and back returns the click, and the
    mapping is linear. *)
Theorem C1_mapper_linear_invertible :
  forall width height display_width display_height : Z,
    0 < width -> 0 < height -> 0 < display_width -> 0 < display_height ->
    exists scale_x scale_y : Q,
      scale_factors width height display_width display_height
        = Some (scale_x, scale_y) /\
      scale_x = (inject_Z width / inject_Z display_width)%Q /\
      scale_y = (inject_Z height / inject_Z display_height)%Q /\
      (forall click_x click_y,
          to_original scale_x scale_y click_x click_y
          = (inject_Z click_x * scale_x, inject_Z click_y * scale_y)%Q) /\
      (forall ann : Q * Q,
          to_display scale_x scale_y ann
          = (fst ann / scale_x, snd ann / scale_y)%Q) /\
      (forall click_x click_y,
          let back := to_display scale_x scale_y
                        (to_original scale_x scale_y click_x click_y) in
          (fst back == inject_Z click_x)%Q /\
          (snd back == inject_Z click_y)%Q) /\
      (forall a b x1 y1 x2 y2,
          let p := to_original scale_x scale_y
                     (a * x1 + b * x2) (a * y1 + b * y2) in
          let p1 := to_original scale_x scale_y x1 y1 in
          let p2 := to_original scale_x scale_y x2 y2 in
          (fst p == inject_Z a * fst p1 + inject_Z b * fst p2)%Q /\
          (snd p == inject_Z a * snd p1 + inject_Z b * snd p2)%Q).
Proof.
  intros w h dw dh Hw Hh Hdw Hdh.
  exists (inject_Z w / inject_Z dw)%Q, (inject_Z h / inject_Z dh)%Q.
  assert (Nw : ~ (inject_Z w == 0)%Q) by (apply inject_Z_nonzero; lia).
  assert (Nh : ~ (inject_Z h == 0)%Q) by (apply inject_Z_nonzero; lia).
  assert (Ndw : ~ (inject_Z dw == 0)%Q) by (apply inject_Z_nonzero; lia).
  assert (Ndh : ~ (inject_Z dh == 0)%Q) by (apply inject_Z_nonzero; lia).
  repeat split.
  - unfold scale_factors. rewrite !truediv_defined by lia. reflexivity.
  - cbn. field. auto.
  - cbn. field. auto.
  - cbn. rewrite !inject_Z_plus, !inject_Z_mult. ring.
  - cbn. rewrite !inject_Z_plus, !inject_Z_mult. ring.
Qed.

(** The 800x600 image at display width 400 and height 300. *)
Lemma C1_mapper_witness :
  0 < 800 /\ 0 < 600 /\ 0 < 400 /\ 0 < 300 /\
  exists scale_x scale_y : Q,
    scale_factors 800 600 400 300 = Some (scale_x, scale_y) /\
    scale_x = (inject_Z 800 / inject_Z 400)%Q /\
    scale_y = (inject_Z 600 / inject_Z 300)%Q.
Proof.
  repeat (split; [lia|]).
  destruct (C1_mapper_linear_invertible 800 600 400 300)
    as (sx & sy & E & Ex & Ey & _); [lia | lia | lia | lia |].
  exists sx, sy. repeat split; assumption.
Defined.

(** C1 as stated fails for a 401x1 image shown 400 pixels wide: line 81
    gives display height [int(400 * (1 / 401)) = 0], the division of line
    88 raises, and the execution ends in an exception with no scale
    factors. *)
Lemma C1_counterexample :
  display_size (F:=float) 401 1 400 = Some 0 /\
  scale_factors (F:=float) 401 1 400 0 = None /\
  layout (F:=float) 401 1 400 = None /\
  layout (F:=Q) 401 1 400 = None /\
  is_raised (main page_401x1 (initial_state float)) = true.
Proof.
  repeat split; vm_compute; reflexivity.
Qed.

(** C2 (as amended): for the 800x600 image at display width 400 the script
    computes display height 300, [scale_x = 2] and [scale_y = 2], and a
    click at display (100, 100) becomes the pending point (200, 200). *)
Theorem C2_example_800x600 :
  layout (F:=float) 800 600 400 = Some (300, 2%float, 2%float) /\
  to_original 2%float 2%float 100 100 = (200%float, 200%float) /\
  main (click page_800x600 100 100) (initial_state float)
  = Rerun {| annotations := [];
             image_width := 800;
             image_height := 600;
             display_width := 400;
             awaiting_label := true;
             current_point := Some (200%float, 200%float) |} /\
  (exists scale_x scale_y : Q,
      layout 800 600 400 = Some (300, scale_x, scale_y) /\
      (scale_x == 2)%Q /\ (scale_y == 2)%Q /\
      (fst (to_original scale_x scale_y 100 100) == 200)%Q /\
      (snd (to_original scale_x scale_y 100 100) == 200)%Q).
Proof.
  split; [vm_compute; reflexivity|].
  split; [vm_compute; reflexivity|].
  split; [vm_compute; reflexivity|].
  exists (inject_Z 800 / inject_Z 400)%Q, (inject_Z 600 / inject_Z 300)%Q.
  repeat split.
Qed.

(** C2 as stated fails: the script's [scale_y] is not 1.5 and the click is
    not mapped to (200, 150). *)
Lemma C2_counterexample :
  exists (display_height : Z) (scale_x scale_y : float),
    layout 800 600 400 = Some (display_height, scale_x, scale_y) /\
    scale_y <> 1.5%float /\
    to_original scale_x scale_y 100 100 <> (200%float, 150%float).
Proof.
  exists 300, 2%float, 2%float.
  split; [vm_compute; reflexivity|].
  split.
  - intros E. apply (f_equal (fun f => PrimFloat.eqb f 1.5%float)) in E.
    vm_compute in E. discriminate.
  - intros E. apply (f_equal (fun p => PrimFloat.eqb (snd p) 150%float)) in E.
    vm_compute in E. discriminate.
Qed.

(** ** Executing the script symbolically *)

Ltac unfold_script :=
  unfold main, run, sidebar, main_area, select_point, annotation_form,
    annotation_table, clear_all, add_annotation, cancel_point, remove_last,
    when, bind, get, ret, rerun, raise, set_annotations, set_image_size,
    set_display_width, set_awaiting_label, set_current_point, is_pressed in *.

(** Split on the innermost test the script is stuck on. *)
Ltac case_step :=
  match goal with
  | |- context [match ?x with _ => _ end] =>
      match x with
      | context [match _ with _ => _ end] => fail 1
      | _ => destruct x eqn:?
      end
  end.

Ltac script_cases :=
  unfold_script; cbn in *;
  repeat (case_step; cbn in *; try discriminate; subst).

Local Arguments removelast : simpl never.

Section Store.
Context {F : Type} `{PyFloat F}.

(** The only exception of the model is the one of lines 79-88. *)
Lemma main_raises_only_on_layout (w : widgets) (st : session_state F) :
  is_raised (main w st) = true ->
  exists width height,
    uploaded_file w = Some (width, height) /\
    layout (F:=F) width height (display_width_slider w) = None.
Proof.
  destruct w as [up ps dws cc mx my li pr nw], st as [anns iw ih dw aw cp].
  script_cases; intros; try discriminate; eauto.
Qed.

(** A confirmed submission, as one execution. *)
Lemma add_runs (w : widgets) (st : session_state F) (x y : F) (label : string) :
  awaiting_label st = true ->
  current_point st = Some (x, y) ->
  truthy label = true ->
  shows_image (F:=F) w = true ->
  exists width height,
    uploaded_file w = Some (width, height) /\
    main (press w AddAnnotation label) st
    = Rerun {| annotations := annotations st ++ new_row x y label (now w);
               image_width := width;
               image_height := height;
               display_width := display_width_slider w;
               awaiting_label := false;
               current_point := None |}.
Proof.
  intros Ha Hp Hl Hs.
  destruct w as [up ps dws cc mx my li pr nw], st as [[|a anns] iw ih dw aw cp];
    cbn in Ha, Hp; subst aw cp; unfold shows_image in Hs; destruct label;
    try discriminate; revert Hs.
  all: script_cases; intros; try discriminate; eauto.
Qed.

(** An undo on a non-empty list, as one execution in which no click is
    taken. *)
Lemma undo_runs (w : widgets) (label : string) (st : session_state F) :
  annotations st <> [] ->
  shows_image (F:=F) w = true ->
  (forall cx cy, clicked_coords w <> Clicked cx cy) ->
  exists width height,
    uploaded_file w = Some (width, height) /\
    main (press w UndoLast label) st
    = Rerun {| annotations := removelast (annotations st);
               image_width := width;
               image_height := height;
               display_width := display_width_slider w;
               awaiting_label := awaiting_label st;
               current_point := current_point st |}.
Proof.
  intros Hn Hs Hc.
  destruct w as [up ps dws cc mx my li pr nw], st as [[|a anns] iw ih dw aw cp];
    [contradiction|].
  unfold shows_image in Hs. cbn in Hc. revert Hs.
  destruct cc as [cx cy| |]; [exfalso; apply (Hc cx cy); reflexivity| |].
  all: script_cases; intros; try discriminate; eauto.
Qed.

(** ** C6, C7, C8, C9, C10: submit, clear and undo *)

(** C6: for every session state and page, submitting the form with an empty
    label is ignored: the execution is the one of the same page with no
    button pressed, the annotation list is unchanged, and nothing is raised
    (the only exception an execution can end in is the one of the layout,
    lines 79-88). *)
Theorem C6_empty_label_ignored (w : widgets) (st : session_state F) :
  let submit := press w AddAnnotation EmptyString in
  main submit st = main (released submit) st /\
  annotations (state_of (main submit st)) = annotations st /\
  (is_raised (main submit st) = true ->
   exists width height,
     uploaded_file w = Some (width, height) /\
     layout (F:=F) width height (display_width_slider w) = None).
Proof.
  cbn zeta. split; [|split].
  - destruct w as [up ps dws cc mx my li pr nw],
             st as [[|a anns] iw ih dw aw cp];
      script_cases; reflexivity.
  - destruct w as [up ps dws cc mx my li pr nw],
             st as [[|a anns] iw ih dw aw cp];
      script_cases; reflexivity.
  - intros R. apply main_raises_only_on_layout in R. exact R.
Qed.

(** C7: "Clear All Annotations" leaves an empty annotation list whatever
    the list held: its body (lines 58-61) does on every state, and so does
    every execution in which the button is pressed. *)
Theorem C7_clear_empties (w : widgets) (label : string) (st : session_state F) :
  (exists st', clear_all st = Stop (Rerun st') /\ annotations st' = []) /\
  annotations (state_of (main (press w ClearAll label) st)) = [].
Proof.
  split.
  - eexists. split; reflexivity.
  - destruct w as [up ps dws cc mx my li pr nw],
             st as [[|a anns] iw ih dw aw cp];
      script_cases; reflexivity.
Qed.

(** C8: with an empty annotation list, pressing undo or clear changes
    nothing: the body of undo goes on with the state as it was, the
    execution is the one of the same page with no button pressed, the list
    stays empty, and nothing is raised by it. *)
Theorem C8_undo_clear_on_empty
  (w : widgets) (label : string) (b : button) (st : session_state F) :
  annotations st = [] ->
  b = UndoLast \/ b = ClearAll ->
  remove_last st = Next tt st /\
  main (press w b label) st = main (released (press w b label)) st /\
  annotations (state_of (main (press w b label) st)) = [] /\
  (is_raised (main (press w b label) st) = true ->
   exists width height,
     uploaded_file w = Some (width, height) /\
     layout (F:=F) width height (display_width_slider w) = None).
Proof.
  intros E Hb. split; [|split; [|split]].
  - unfold remove_last, bind, get, when. rewrite E. reflexivity.
  - destruct w as [up ps dws cc mx my li pr nw], st as [anns iw ih dw aw cp].
    cbn in E. subst anns. destruct Hb; subst b; script_cases; reflexivity.
  - destruct w as [up ps dws cc mx my li pr nw], st as [anns iw ih dw aw cp].
    cbn in E. subst anns. destruct Hb; subst b; script_cases; reflexivity.
  - intros R. apply main_raises_only_on_layout in R. exact R.
Qed.

(** C9: an execution in which "Clear All Annotations" is pressed (the
    button exists when the list is not empty) calls [st.rerun()] with the
    list empty, [current_point = None] and [awaiting_label = False]; the
    label form is then not on the page, and stays off it in a following
    execution that gets no click and no button. *)
Theorem C9_clear_resets_pending
  (w : widgets) (label : string) (st : session_state F) :
  annotations st <> [] ->
  let cleared := {| annotations := [];
                    image_width := image_width st;
                    image_height := image_height st;
                    display_width := display_width_slider w;
                    awaiting_label := false;
                    current_point := None |} in
  main (press w ClearAll label) st = Rerun cleared /\
  form_shown cleared = false /\
  (forall w', clicked_coords w' = NoClick -> pressed w' = None ->
     form_shown (state_of (main w' cleared)) = false).
Proof.
  intros E. cbn zeta. split; [|split].
  - destruct w as [up ps dws cc mx my li pr nw],
             st as [[|a anns] iw ih dw aw cp];
      [contradiction|]. script_cases; reflexivity.
  - reflexivity.
  - intros w' Hc Hp.
    destruct w' as [up ps dws cc mx my li pr nw]. cbn in Hc, Hp. subst cc pr.
    script_cases; reflexivity.
Qed.

(** C10: with a point pending, a submission with an empty label leaves
    [current_point] and [awaiting_label] as they were; on a page that shows
    the image, a submission resets them exactly when its label is not
    empty, and cancel resets them. *)
Theorem C10_pending_kept_on_empty_label
  (w : widgets) (st : session_state F) (x y : F) :
  awaiting_label st = true ->
  current_point st = Some (x, y) ->
  (let st' := state_of (main (press w AddAnnotation EmptyString) st) in
   current_point st' = Some (x, y) /\ awaiting_label st' = true) /\
  (shows_image (F:=F) w = true ->
   (forall label,
       let st' := state_of (main (press w AddAnnotation label) st) in
       current_point st' = (if truthy label then None else Some (x, y)) /\
       awaiting_label st' = negb (truthy label)) /\
   (forall label,
       let st' := state_of (main (press w Cancel label) st) in
       current_point st' = None /\ awaiting_label st' = false)).
Proof.
  intros Ha Hp.
  destruct w as [up ps dws cc mx my li pr nw],
           st as [[|a anns] iw ih dw aw cp];
    cbn in Ha, Hp; subst aw cp; unfold shows_image; cbn zeta.
  all: split; [script_cases; split; reflexivity|].
  all: intros Hs; split; intros label; destruct label; revert Hs;
    script_cases; intros; try discriminate; split; reflexivity.
Qed.

End Store.

(** C8 at the start of a session: undo pressed on the empty list. *)
Lemma C8_witness :
  annotations (initial_state float) = [] /\
  main (press page_800x600 UndoLast EmptyString) (initial_state float)
  = main (released (press page_800x600 UndoLast EmptyString))
         (initial_state float) /\
  annotations (state_of (main (press page_800x600 UndoLast EmptyString)
                              (initial_state float))) = [].
Proof.
  split; [reflexivity|].
  destruct (@C8_undo_clear_on_empty float binary64 page_800x600 EmptyString
              UndoLast (initial_state float))
    as (_ & E & N & _); [reflexivity | left; reflexivity |].
  split; assumption.
Defined.

(** C9 on a session with one annotation stored and a point pending. *)
Lemma C9_witness :
  annotations one_stored_one_pending <> [] /\
  form_shown one_stored_one_pending = true /\
  main (press page_800x600 ClearAll EmptyString) one_stored_one_pending
  = Rerun {| annotations := [];
             image_width := 800;
             image_height := 600;
             display_width := 400;
             awaiting_label := false;
             current_point := None |}.
Proof.
  assert (N : annotations one_stored_one_pending <> [])
    by (vm_compute; discriminate).
  split; [exact N|]. split; [vm_compute; reflexivity|].
  exact (proj1 (@C9_clear_resets_pending float binary64 page_800x600
                  EmptyString one_stored_one_pending N)).
Defined.

(** C10 on the same session: the pending point (100, 120) survives an
    empty-label submission. *)
Lemma C10_witness :
  awaiting_label one_stored_one_pending = true /\
  current_point one_stored_one_pending = Some (100%float, 120%float) /\
  current_point
    (state_of (main (press page_800x600 AddAnnotation EmptyString)
                    one_stored_one_pending))
  = Some (100%float, 120%float).
Proof.
  assert (A : awaiting_label one_stored_one_pending = true)
    by (vm_compute; reflexivity).
  assert (P : current_point one_stored_one_pending
              = Some (100%float, 120%float))
    by (vm_compute; reflexivity).
  split; [exact A|]. split; [exact P|].
  exact (proj1 (proj1 (@C10_pending_kept_on_empty_label float binary64
                         page_800x600 one_stored_one_pending
                         100%float 120%float A P))).
Defined.

(** ** C3: add, then undo *)

(** C3: a confirmed submission (a point pending, a non-empty label, on a
    page that shows the image) appends one annotation, and an undo in an
    execution that follows and takes no click gives back the annotation
    list from before the submission; in particular three submissions and
    one undo leave the first two annotations. *)
Theorem C3_add_then_undo :
  (forall (F : Type) (HF : PyFloat F) (w w' : widgets) (st : session_state F)
          (x y : F) (label label' : string),
      awaiting_label st = true ->
      current_point st = Some (x, y) ->
      truthy label = true ->
      shows_image (F:=F) w = true ->
      shows_image (F:=F) w' = true ->
      (forall cx cy, clicked_coords w' <> Clicked cx cy) ->
      let st1 := state_of (main (press w AddAnnotation label) st) in
      annotations st1 = annotations st ++ new_row x y label (now w) /\
      annotations (state_of (main (press w' UndoLast label') st1))
      = annotations st) /\
  (let ts := now page_800x600 in
   let first := {| ann_x := 200%float; ann_y := 200%float;
                   ann_label := "first"; ann_timestamp := ts |} in
   let second := {| ann_x := 100%float; ann_y := 120%float;
                    ann_label := "second"; ann_timestamp := ts |} in
   let third := {| ann_x := 20%float; ann_y := 40%float;
                   ann_label := "third"; ann_timestamp := ts |} in
   annotations (session three_adds (initial_state float))
   = [first; second; third] /\
   annotations (session (three_adds ++ [press page_800x600 UndoLast EmptyString])
                        (initial_state float))
   = [first; second]).
Proof.
  split.
  - intros F HF w w' st x y label label' Ha Hp Hl Hs Hs' Hc. cbn zeta.
    destruct (add_runs w st x y label Ha Hp Hl Hs) as (wd & ht & _ & ->).
    cbn [state_of annotations]. split; [reflexivity|].
    match goal with |- context [main _ ?s] => set (st1 := s) end.
    destruct (undo_runs w' label' st1) as (wd' & ht' & _ & ->); auto.
    + subst st1. cbn. intros E. apply app_eq_nil in E.
      destruct E; discriminate.
    + subst st1. cbn [state_of annotations]. apply removelast_last.
  - vm_compute. split; reflexivity.
Qed.

(** C3 on the session with one annotation stored and (100, 120) pending:
    label the point, then undo. *)
Lemma C3_witness :
  annotations
    (state_of
       (main (press page_800x600 UndoLast EmptyString)
             (state_of (main (press page_800x600 AddAnnotation "second")
                             one_stored_one_pending))))
  = annotations one_stored_one_pending.
Proof.
  refine (proj2 (proj1 C3_add_then_undo float binary64 page_800x600
                   page_800x600 one_stored_one_pending
                   100%float 120%float "second"%string EmptyString
                   _ _ _ _ _ _)).
  - vm_compute; reflexivity.
  - vm_compute; reflexivity.
  - reflexivity.
  - vm_compute; reflexivity.
  - vm_compute; reflexivity.
  - intros cx cy; discriminate.
Defined.

(** ** C4: stored annotations lie on the image *)

Lemma scaled_in_range (c d n : Z) :
  0 <= c <= d -> d <> 0 -> 0 < n ->
  (0 <= inject_Z c * (inject_Z n / inject_Z d) <= inject_Z n)%Q.
Proof.
  intros Hc Hd Hn.
  destruct d as [|p|p]; try lia.
  unfold Qle, Qmult, Qdiv, Qinv, inject_Z; cbn.
  split; nia.
Qed.

Lemma inject_in_range (c n : Z) :
  0 <= c <= n -> (0 <= inject_Z c <= inject_Z n)%Q.
Proof.
  intros Hc. rewrite <- !Zle_Qle.
  change 0%Q with (inject_Z 0). rewrite <- Zle_Qle. lia.
Qed.

Lemma Forall_removelast {A} (P : A -> Prop) (l : list A) :
  Forall P l -> Forall P (removelast l).
Proof.
  induction 1 as [|a l Ha Hl IH]; [constructor|].
  destruct l as [|b l]; [constructor|].
  change (removelast (a :: b :: l)) with (a :: removelast (b :: l)).
  constructor; assumption.
Qed.

(** A click on the displayed image is mapped to a point of the image. *)
Lemma click_in_image (wd ht dws dh : Z) (sx sy : Q) (x y : Z) :
  0 < wd -> 0 < ht ->
  layout wd ht dws = Some (dh, sx, sy) ->
  0 <= x <= dws /\ 0 <= y <= dh ->
  in_image wd ht (to_original sx sy x y).
Proof.
  intros Hwd Hht L [Hx Hy].
  apply layout_some in L. destruct L as [_ L].
  apply scale_factors_some in L. destruct L as (Ndw & Ndh & -> & ->).
  split; cbn; apply scaled_in_range; assumption.
Qed.

Ltac in_bounds :=
  repeat match goal with
    | |- _ /\ _ => split
    | |- Forall _ [] => constructor
    | |- Forall _ (removelast _) => apply Forall_removelast
    | |- Forall _ (_ ++ _) => apply Forall_app; split
    | |- Forall _ (new_row _ _ _ _) => unfold new_row
    | |- Forall _ (_ :: _) => first [assumption | constructor]
    | |- forall p, _ = Some p -> _ =>
        let E := fresh in intros ? E; inversion E; subst; clear E
    | H : forall p, Some ?q = Some p -> _ |- in_image _ _ ?q =>
        apply H; reflexivity
    | |- in_image _ _ (inject_Z _, inject_Z _) =>
        split; cbn; apply inject_in_range; assumption
    | Hc : context [Clicked] |- in_image _ _ (to_original _ _ _ _) =>
        eapply click_in_image;
        [assumption | assumption | eassumption | eapply Hc; reflexivity]
    | _ => assumption
    | H : forall p, ?c = Some p -> _ |- in_image _ _ _ =>
        eapply H; eassumption
    end.

Ltac carried :=
  repeat match goal with
    | |- _ /\ _ => split
    | |- Forall _ [] => constructor
    | |- Forall _ (removelast _) => apply Forall_removelast
    | |- Forall _ (_ ++ _) => apply Forall_app; split
    | |- Forall _ (new_row _ _ _ _) => unfold new_row
    | |- Forall _ (_ :: _) => first [assumption | constructor]
    | |- forall p, _ = Some p -> _ =>
        let E := fresh in intros ? E; inversion E; subst; clear E
    | H : forall p, Some ?q = Some p -> _ |- _ ?q => apply H; reflexivity
    | Hc : context [to_original] |- context [to_original] =>
        eapply Hc; reflexivity
    | _ => assumption
    | H : forall p, ?c = Some p -> _ |- _ => eapply H; eassumption
    end.

(** Whatever the float arithmetic: the script never computes with a stored
    coordinate.  A bound that holds for the points of the session state and
    for the point the page can make pending holds for the points of the
    state after the execution. *)
Lemma points_carried {F : Type} `{PyFloat F}
  (P : F * F -> Prop) (w : widgets) (st : session_state F) :
  points_satisfy P st -> entry_satisfies P w ->
  points_satisfy P (state_of (main w st)).
Proof.
  intros [Hanns Hpoint] Hentry.
  destruct w as [up ps dws cc mx my li pr nw], st as [anns iw ih dw aw cp].
  unfold points_satisfy, entry_satisfies in *. cbn in Hanns, Hpoint, Hentry.
  destruct up as [[wd ht]|].
  - destruct anns as [|a anns].
    + destruct cc; script_cases; carried.
    + pose proof (Forall_inv Hanns) as Ha.
      pose proof (Forall_inv_tail Hanns) as Htl.
      destruct cc; script_cases; carried.
  - destruct anns as [|a anns]; script_cases; carried.
Qed.




(** ** C5: the exported file *)

Lemma append_nil_r (s : string) : (s ++ EmptyString)%string = s.
Proof. induction s as [|c s IH]; cbn; [reflexivity|now rewrite IH]. Qed.

Lemma append_assoc (a b c : string) :
  ((a ++ b) ++ c)%string = (a ++ (b ++ c))%string.
Proof. induction a as [|x a IH]; cbn; [reflexivity|now rewrite IH]. Qed.

Lemma prefix_field_nil records : prefix_field EmptyString records = records.
Proof. destruct records as [|[|g r] rs]; reflexivity. Qed.

Lemma prefix_field_cons c f records :
  prefix_field (String c f) records = literal c (prefix_field f records).
Proof. destruct records as [|[|g r] rs]; reflexivity. Qed.

(** At the end of a field the reader does the same whether it was at the
    start of the field, inside it, or after its closing quote. *)
Lemma read_at_field_end (q : reader_state) (k : string) :
  at_field_end k -> q = InField \/ q = AfterQuote ->
  read_records q k = read_records StartField k.
Proof.
  destruct k as [|c k]; intros Hk [-> | ->]; try reflexivity;
    destruct Hk as [-> | ->]; reflexivity.
Qed.

(** Inside quotes, the doubled text up to the closing quote reads back as
    the text. *)
Lemma read_quoted (f k : string) :
  read_records InQuoted (double_quotes f ++ String dquote k)
  = prefix_field f (read_records AfterQuote k).
Proof.
  induction f as [|c f IH].
  - cbn. now rewrite prefix_field_nil.
  - rewrite prefix_field_cons. cbn [double_quotes].
    destruct (Ascii.eqb_spec c dquote) as [->|Hc].
    + cbn. now rewrite IH.
    + cbn. apply Ascii.eqb_neq in Hc. rewrite Hc. now rewrite IH.
Qed.

Lemma special_false (c : ascii) :
  special c = false ->
  Ascii.eqb c comma = false /\ Ascii.eqb c dquote = false /\
  Ascii.eqb c LF = false.
Proof.
  unfold special. intros E.
  repeat (apply orb_false_iff in E; destruct E as [E ?]). auto.
Qed.

(** A field written without quotes reads back as itself, unless it holds a
    carriage return. *)
Lemma read_plain (f k : string) :
  needs_quotes f = false -> has CR f = false ->
  read_records InField (f ++ k) = prefix_field f (read_records InField k).
Proof.
  induction f as [|c f IH]; intros Hf Hr.
  - cbn. now rewrite prefix_field_nil.
  - cbn in Hf, Hr. apply orb_false_iff in Hf, Hr.
    destruct Hf as [Hc Hf], Hr as [Hc4 Hr].
    apply special_false in Hc. destruct Hc as (Hc1 & Hc2 & Hc3).
    rewrite prefix_field_cons. cbn. rewrite Hc1, Hc3, Hc4.
    now rewrite IH.
Qed.

Lemma readable_plain (f : string) :
  readable f = true -> needs_quotes f = false -> has CR f = false.
Proof.
  unfold readable. intros R N. rewrite N in R. cbn in R.
  now apply negb_true_iff in R.
Qed.

Lemma read_field (f k : string) :
  at_field_end k -> readable f = true ->
  read_records StartField (write_field f ++ k)
  = prefix_field f (read_records StartField k).
Proof.
  intros Hk Hr. unfold write_field.
  destruct (needs_quotes f) eqn:Hf.
  - cbn. rewrite append_assoc. cbn. rewrite read_quoted.
    now rewrite read_at_field_end by (assumption || auto).
  - pose proof (readable_plain f Hr Hf) as Hcr.
    destruct f as [|c f]; [cbn; now rewrite prefix_field_nil|].
    cbn in Hf, Hcr. apply orb_false_iff in Hf, Hcr.
    destruct Hf as [Hc Hf], Hcr as [Hc4 Hcr].
    apply special_false in Hc. destruct Hc as (Hc1 & Hc2 & Hc3).
    rewrite prefix_field_cons. cbn. rewrite Hc1, Hc2, Hc3, Hc4.
    rewrite read_plain by assumption.
    now rewrite read_at_field_end by (assumption || auto).
Qed.

(** The first field of a record of several fields is read as any other
    field. *)
Lemma read_first_field (f k : string) :
  readable f = true ->
  read_records StartRecord (write_field f ++ String comma k)
  = read_records StartField (write_field f ++ String comma k).
Proof.
  intros Hr. unfold write_field.
  destruct (needs_quotes f) eqn:Hf; [reflexivity|].
  pose proof (readable_plain f Hr Hf) as Hcr.
  destruct f as [|c f]; [reflexivity|].
  cbn in Hf, Hcr. apply orb_false_iff in Hf, Hcr.
  destruct Hf as [Hc Hf], Hcr as [Hc4 Hcr].
  apply special_false in Hc. destruct Hc as (Hc1 & Hc2 & Hc3).
  cbn. now rewrite Hc1, Hc2, Hc3, Hc4.
Qed.

Lemma read_fields (f : string) (fs : list string) (rest : string) :
  Forall (fun g => readable g = true) (f :: fs) ->
  read_records StartField (write_record (f :: fs) ++ rest)
  = (f :: fs) :: read_records StartRecord rest.
Proof.
  revert f. induction fs as [|g fs IH]; intros f Hr.
  - cbn [write_record]. rewrite append_assoc.
    rewrite read_field by (try (right; reflexivity); now inversion Hr).
    cbn. now rewrite append_nil_r.
  - change (write_record (f :: g :: fs))
      with (write_field f ++ String comma (write_record (g :: fs)))%string.
    rewrite append_assoc.
    rewrite read_field by (try (left; reflexivity); now inversion Hr).
    cbn [append]. change (read_records StartField (String comma ?s))
      with (end_field (read_records StartField s)).
    rewrite IH by now inversion Hr.
    cbn. now rewrite append_nil_r.
Qed.

(** A line of several fields reads back as its fields, and the reader goes
    on with the next line. *)
Lemma read_line (f g : string) (fs : list string) (rest : string) :
  Forall (fun h => readable h = true) (f :: g :: fs) ->
  read_records StartRecord (write_record (f :: g :: fs) ++ rest)
  = (f :: g :: fs) :: read_records StartRecord rest.
Proof.
  intros Hr. rewrite <- read_fields by assumption.
  change (write_record (f :: g :: fs))
    with (write_field f ++ String comma (write_record (g :: fs)))%string.
  rewrite append_assoc. cbn [append].
  apply read_first_field. now inversion Hr.
Qed.

(** Decimal integers can be read back. *)
Lemma read_int_repr (v : Z) : read_int (repr_int v) = Some v.
Proof.
  unfold read_int, repr_int.
  rewrite NilZero.isi.
  - cbn. now rewrite DecimalZ.of_to.
  - destruct v; cbn; try discriminate.
    intros [= E]. revert E. apply Unsigned.to_uint_nonnil.
  - destruct v; cbn; try discriminate.
    intros [= E]. revert E. apply Unsigned.to_uint_nonnil.
Qed.

(** The characters of a number. *)
Lemma has_append (c : ascii) (a b : string) :
  has c (a ++ b) = has c a || has c b.
Proof.
  induction a as [|x a IH]; cbn; [reflexivity|].
  now rewrite IH, orb_assoc.
Qed.

Lemma digits_without (c : ascii) (d : uint) :
  digit_value c = None -> has c (NilEmpty.string_of_uint d) = false.
Proof.
  intros Hc.
  induction d; cbn [NilEmpty.string_of_uint has]; [reflexivity|..];
    (match goal with
     | |- Ascii.eqb ?a c || _ = false =>
         destruct (Ascii.eqb_spec a c) as [<-|_]; [discriminate Hc|exact IHd]
     end).
Qed.

Lemma repr_int_without (c : ascii) (z : Z) :
  digit_value c = None -> Ascii.eqb "-" c = false ->
  has c (repr_int z) = false.
Proof.
  intros Hc Hm.
  assert (Hz : has c "0" = false).
  { exact (digits_without c (D0 Nil) Hc). }
  unfold repr_int, NilZero.string_of_int, NilZero.string_of_uint.
  destruct (Z.to_int z) as [d|d]; cbn [has]; rewrite ?Hm; cbn [orb];
    (destruct d; [exact Hz|now apply digits_without..]).
Qed.

#[export] Instance decimal : Repr Z := {|
  repr := repr_int;
  read_number := read_int;
  read_repr := read_int_repr;
  repr_line := fun v => repr_int_without CR v eq_refl eq_refl
|}.

(** The text of a float reads back as the float. *)
Lemma split_at_append (c : ascii) (a b : string) :
  has c a = false -> split_at c (a ++ String c b) = Some (a, b).
Proof.
  induction a as [|x a IH]; cbn.
  - intros _. now rewrite Ascii.eqb_refl.
  - intros E. apply orb_false_iff in E. destruct E as [E1 E2].
    rewrite E1, (IH E2). reflexivity.
Qed.

Lemma read_binary_text (neg : bool) (m : positive) (e : Z) :
  read_float (binary_text neg m e) = Some (SF2Prim (S754_finite neg m e)).
Proof.
  unfold read_float, binary_text.
  rewrite split_at_append by (now apply repr_int_without).
  unfold read_binary. rewrite !read_int_repr. now destruct neg.
Qed.

Lemma read_float_repr (f : float) : read_float (repr_float f) = Some f.
Proof.
  unfold repr_float.
  pose proof (SF2Prim_Prim2SF f) as R. revert R.
  destruct (Prim2SF f) as [neg|neg| |neg m e]; intros R.
  - rewrite <- R. now destruct neg.
  - rewrite <- R. now destruct neg.
  - rewrite <- R. reflexivity.
  - destruct (find (reads_as f) (short_texts neg m e)) as [s|] eqn:S.
    + apply find_some in S. destruct S as [_ S].
      unfold reads_as in S. destruct (read_float s) as [g|]; [|discriminate].
      apply Leibniz.eqb_spec in S. now subst g.
    + rewrite <- R. apply read_binary_text.
Qed.

(** The text of a float is on one line. *)
Lemma zeros_line (n : nat) : has CR (zeros n) = false.
Proof. induction n; cbn; auto. Qed.

Lemma substring_line (n m : nat) (s : string) :
  has CR s = false -> has CR (substring n m s) = false.
Proof.
  revert n m. induction s as [|c s IH]; intros n m Hs.
  - destruct n, m; reflexivity.
  - cbn in Hs. apply orb_false_iff in Hs. destruct Hs as [Hc Hs].
    destruct n as [|n]; [destruct m as [|m]|]; cbn.
    + reflexivity.
    + rewrite Hc. now apply IH.
    + now apply IH.
Qed.

Lemma repr_int_line (z : Z) : has CR (repr_int z) = false.
Proof. now apply repr_int_without. Qed.

Lemma exponent_text_line (e : Z) : has CR (exponent_text e) = false.
Proof.
  unfold exponent_text. rewrite !has_append, repr_int_line.
  now destruct (e <? 0), (Z.abs e <? 10).
Qed.

Lemma format_short_line (digits : string) (decpt : Z) :
  has CR digits = false -> has CR (format_short digits decpt) = false.
Proof.
  intros Hd. unfold format_short.
  destruct ((decpt <=? -4) || (16 <? decpt)).
  - destruct digits as [|d [|d' rest]]; [reflexivity|..];
      cbn in Hd |- *; apply orb_false_iff in Hd; destruct Hd as [-> Hd];
      cbn; rewrite ?has_append, ?exponent_text_line, ?orb_false_r;
      [reflexivity | exact Hd].
  - destruct (decpt <=? 0); [|destruct (_ <=? decpt)];
      repeat (rewrite has_append || rewrite zeros_line || rewrite Hd
              || rewrite substring_line by assumption);
      reflexivity.
Qed.

Lemma decimal_text_line (neg : bool) (cx : Z * Z) :
  has CR (decimal_text neg cx) = false.
Proof.
  unfold decimal_text.
  destruct (strip_zeros 20 (fst cx) (snd cx)) as [c x].
  rewrite has_append, format_short_line by apply repr_int_line.
  now destruct neg.
Qed.

Lemma repr_float_line (f : float) : has CR (repr_float f) = false.
Proof.
  unfold repr_float.
  destruct (Prim2SF f) as [neg|neg| |neg m e];
    try (now destruct neg); try reflexivity.
  destruct (find (reads_as f) (short_texts neg m e)) as [s|] eqn:S.
  - apply find_some in S. destruct S as [S _].
    unfold short_texts in S. apply in_flat_map in S.
    destruct S as (n & _ & S). apply in_map_iff in S.
    destruct S as (cx & <- & _). apply decimal_text_line.
  - unfold binary_text. rewrite has_append. cbn.
    now rewrite !repr_int_line.
Qed.

#[export] Instance float_text : Repr float := {|
  repr := repr_float;
  read_number := read_float;
  read_repr := read_float_repr;
  repr_line := repr_float_line
|}.

Section RoundTrip.
Context {F : Type} `{Repr F}.

Lemma readable_row (row : annotation F) :
  readable (ann_label row) = true /\ readable (ann_timestamp row) = true ->
  Forall (fun g => readable g = true) (row_fields row).
Proof.
  intros [Hl Ht]. unfold row_fields.
  repeat constructor; try assumption;
    unfold readable; rewrite repr_line; apply orb_true_r.
Qed.

Lemma read_rows (df : list (annotation F)) :
  readable_rows df ->
  read_records StartRecord
    (fold_right (fun row rest => write_record (row_fields row) ++ rest)%string
                EmptyString df)
  = map row_fields df.
Proof.
  induction 1 as [|row df Hrow Hdf IH]; [reflexivity|].
  cbn [fold_right map]. apply readable_row in Hrow.
  unfold row_fields in Hrow |- * at 1.
  rewrite read_line by exact Hrow. now rewrite IH.
Qed.

Lemma read_to_csv (df : list (annotation F)) :
  readable_rows df ->
  read_csv (to_csv df) = columns :: map row_fields df.
Proof.
  intros Hdf. unfold read_csv, to_csv, columns.
  rewrite read_line by (repeat constructor). now rewrite read_rows.
Qed.

Lemma read_triples_rows (df : list (annotation F)) :
  read_triples (map row_fields df)
  = Some (map (fun row => (ann_x row, ann_y row, ann_label row)) df).
Proof.
  induction df as [|row df IH]; [reflexivity|].
  cbn [map read_triples]. rewrite IH.
  unfold read_triple, row_fields. now rewrite !read_repr.
Qed.

Lemma parse_to_csv (df : list (annotation F)) :
  readable_rows df ->
  parse_export (convert_df_to_csv df)
  = Some (map (fun row => (ann_x row, ann_y row, ann_label row)) df).
Proof.
  intros Hdf. unfold parse_export, convert_df_to_csv.
  rewrite string_of_list_byte_of_string, read_to_csv by assumption.
  destruct (list_eq_dec string_dec columns columns) as [_|N];
    [|contradiction].
  apply read_triples_rows.
Qed.

End RoundTrip.




(** * Further properties of the script *)

Ltac button_facts :=
  repeat match goal with
    | Hb : (button_eqb ?b _ && _)%bool = true |- _ =>
        apply andb_prop in Hb; destruct Hb as [? ?]
    | Hb : button_eqb ?b _ = true |- _ =>
        destruct b; try discriminate Hb; clear Hb
    end.

(** ** Invariants of a session *)

Section Sessions.
Context {F : Type} `{PyFloat F}.

(** What every execution keeps holds after every session. *)
Lemma session_invariant (P : session_state F -> Prop) :
  (forall w st, P st -> P (state_of (main w st))) ->
  forall ws st, P st -> P (session ws st).
Proof.
  intros Step ws. unfold session.
  induction ws as [|w ws IH]; intros st Hst; [exact Hst|].
  cbn [fold_left]. apply IH. now apply Step.
Qed.

Lemma pending_consistent_step (w : widgets) (st : session_state F) :
  pending_consistent st -> pending_consistent (state_of (main w st)).
Proof.
  unfold pending_consistent.
  destruct w as [up ps dws cc mx my li pr nw],
           st as [[|a anns] iw ih dw aw cp];
    cbn; intros E; script_cases;
    try reflexivity; try assumption; try discriminate.
Qed.

Lemma labelled_step (w : widgets) (st : session_state F) :
  labelled st -> labelled (state_of (main w st)).
Proof.
  unfold labelled.
  destruct w as [up ps dws cc mx my li pr nw],
           st as [[|a anns] iw ih dw aw cp];
    cbn; intros E; script_cases;
    repeat first
      [ assumption
      | apply Forall_nil
      | apply Forall_removelast; assumption
      | apply Forall_cons
      | apply Forall_app; split
      | apply (Forall_inv E)
      | apply (Forall_inv_tail E) ].
  all: match goal with
       | Hl : (_ && truthy _)%bool = true |- _ =>
           apply andb_prop in Hl; destruct Hl as [_ Hl]; exact Hl
       end.
Qed.

(** X1: after every session from a session start, [awaiting_label] is true
    exactly when [current_point] holds a point, so the second test of line
    171 never decides: the form is shown exactly when [awaiting_label] is
    true. *)
Theorem X1_pending_flag_matches_point (ws : list widgets) :
  let st := session ws (initial_state F) in
  pending_consistent st /\ form_shown st = awaiting_label st.
Proof.
  cbn zeta.
  assert (P : pending_consistent (session ws (initial_state F))).
  { apply session_invariant; [apply pending_consistent_step|reflexivity]. }
  split; [exact P|].
  unfold form_shown. rewrite P. now destruct (current_point _).
Qed.

(** X2: after every session from a session start, no stored annotation has
    an empty label. *)
Theorem X2_stored_labels_nonempty (ws : list widgets) :
  labelled (session ws (initial_state F)).
Proof.
  apply session_invariant; [apply labelled_step|constructor].
Qed.

(** ** What one execution can do *)

(** X3: an execution leaves the annotation list as it was, or empties it
    (only with the clear button pressed), or drops its last row (only with
    the undo button pressed), or appends one row made of the pending point,
    the text of the label box and the time of the execution (only with the
    submit button pressed, a non-empty label and a point pending).  Stored
    rows are never edited or reordered. *)
Theorem X3_list_changes_by_button (w : widgets) (st : session_state F) :
  let old := annotations st in
  let new := annotations (state_of (main w st)) in
  new = old \/
  (pressed w = Some ClearAll /\ new = []) \/
  (pressed w = Some UndoLast /\ new = removelast old) \/
  (pressed w = Some AddAnnotation /\ truthy (label_input w) = true /\
   awaiting_label st = true /\
   exists x y, current_point st = Some (x, y) /\
               new = old ++ new_row x y (label_input w) (now w)).
Proof.
  cbn zeta.
  destruct w as [up ps dws cc mx my li pr nw],
           st as [[|a anns] iw ih dw aw cp];
    script_cases; button_facts; auto.
  all: try (right; right; left; split; reflexivity).
  all: try (right; left; split; reflexivity).
  all: right; right; right;
    split; [reflexivity|]; split; [assumption || reflexivity|];
    split; [reflexivity|]; eexists _, _; split; reflexivity.
Qed.

(** X4: an execution that runs to the end of the script (no [st.rerun()],
    no exception) has changed neither the annotation list nor the pending
    point: every change of them is followed by [st.rerun()].  It has stored
    the slider's display width. *)
Theorem X4_completed_changes_nothing (w : widgets) (st st' : session_state F) :
  main w st = Completed st' ->
  annotations st' = annotations st /\
  current_point st' = current_point st /\
  awaiting_label st' = awaiting_label st /\
  display_width st' = display_width_slider w.
Proof.
  destruct w as [up ps dws cc mx my li pr nw],
           st as [[|a anns] iw ih dw aw cp];
    script_cases; intros [= <-]; cbn; repeat split; reflexivity.
Qed.

Lemma is_raised_main (w : widgets) (st : session_state F) :
  is_raised (main w st) = negb (clear_fires w st) && layout_fails (F:=F) w.
Proof.
  unfold clear_fires, layout_fails.
  destruct w as [up ps dws cc mx my li pr nw],
           st as [[|a anns] iw ih dw aw cp];
    script_cases; reflexivity.
Qed.

Lemma raised_keeps_state (w : widgets) (st : session_state F) :
  is_raised (main w st) = true ->
  annotations (state_of (main w st)) = annotations st /\
  current_point (state_of (main w st)) = current_point st /\
  awaiting_label (state_of (main w st)) = awaiting_label st.
Proof.
  destruct w as [up ps dws cc mx my li pr nw],
           st as [[|a anns] iw ih dw aw cp];
    script_cases; intros; try discriminate; repeat split; reflexivity.
Qed.

(** X6: while a point is pending, a click on the image is ignored: the
    execution is the one of the same page with nothing clicked (line
    137). *)
Theorem X6_click_ignored_while_pending
  (w : widgets) (st : session_state F) (cx cy : Z) :
  clicked_coords w = Clicked cx cy ->
  awaiting_label st = true ->
  main w st = main (without_click w) st.
Proof.
  intros Hc Ha.
  destruct w as [up ps dws cc mx my li pr nw],
           st as [[|a anns] iw ih dw aw cp];
    cbn in Hc, Ha; subst cc aw; script_cases; reflexivity.
Qed.

(** X7: with no point pending, a click reported on a page that shows the
    image becomes the pending point, in original coordinates, and the
    execution ends in [st.rerun()] there: whatever button is pressed in the
    same execution (submit, cancel, undo) is not looked at.  Only a clear
    that fires comes first. *)
Theorem X7_click_selects_point
  (w : widgets) (st : session_state F)
  (width height display_height : Z) (scale_x scale_y : F) (cx cy : Z) :
  uploaded_file w = Some (width, height) ->
  layout width height (display_width_slider w)
  = Some (display_height, scale_x, scale_y) ->
  clicked_coords w = Clicked cx cy ->
  awaiting_label st = false ->
  clear_fires w st = false ->
  main w st
  = Rerun {| annotations := annotations st;
             image_width := width;
             image_height := height;
             display_width := display_width_slider w;
             awaiting_label := true;
             current_point := Some (to_original scale_x scale_y cx cy) |}.
Proof.
  intros Hu Hl Hc Ha Hf. unfold clear_fires in Hf.
  destruct w as [up ps dws cc mx my li pr nw],
           st as [[|a anns] iw ih dw aw cp];
    cbn in Hu, Hl, Hc, Ha, Hf; subst up cc aw;
    destruct pr as [[]|]; cbn in Hf; try discriminate Hf;
    unfold_script; cbn; rewrite Hl; reflexivity.
Qed.

(** X8: without the coordinate component, "Set Point" makes the manual
    entry the pending point whether or not a point is already pending
    (lines 162-165 have no [awaiting_label] test, unlike line 137): a
    pending point is replaced. *)
Theorem X8_set_point_overrides_pending
  (w : widgets) (st : session_state F) (width height : Z) :
  uploaded_file w = Some (width, height) ->
  layout_fails (F:=F) w = false ->
  clicked_coords w = Unavailable ->
  pressed w = Some SetPoint ->
  main w st
  = Rerun {| annotations := annotations st;
             image_width := width;
             image_height := height;
             display_width := display_width_slider w;
             awaiting_label := true;
             current_point :=
               Some (of_int (manual_x w), of_int (manual_y w)) |}.
Proof.
  intros Hu Hl Hc Hp. unfold layout_fails in Hl.
  destruct w as [up ps dws cc mx my li pr nw],
           st as [[|a anns] iw ih dw aw cp];
    cbn in Hu, Hl, Hc, Hp; subst up cc pr; revert Hl;
    script_cases; intros; try discriminate; reflexivity.
Qed.

(** X9: with no file uploaded only the sidebar runs: the execution stores
    the slider's display width and, if the clear button fires, empties the
    list and drops the pending point; clicks, manual entries, submit, cancel
    and undo do nothing, and nothing is raised. *)
Theorem X9_no_upload_only_sidebar (w : widgets) (st : session_state F) :
  uploaded_file w = None ->
  main w st
  = if clear_fires w st
    then Rerun {| annotations := [];
                  image_width := image_width st;
                  image_height := image_height st;
                  display_width := display_width_slider w;
                  awaiting_label := false;
                  current_point := None |}
    else Completed {| annotations := annotations st;
                      image_width := image_width st;
                      image_height := image_height st;
                      display_width := display_width_slider w;
                      awaiting_label := awaiting_label st;
                      current_point := current_point st |}.
Proof.
  intros Hu. unfold clear_fires.
  destruct w as [up ps dws cc mx my li pr nw],
           st as [[|a anns] iw ih dw aw cp];
    cbn in Hu; subst up; script_cases; reflexivity.
Qed.

Lemma undo_on_empty (w : widgets) (label : string) (st : session_state F) :
  annotations st = [] ->
  annotations (state_of (main (press w UndoLast label) st)) = [].
Proof.
  destruct w as [up ps dws cc mx my li pr nw], st as [anns iw ih dw aw cp].
  cbn. intros ->. script_cases; reflexivity.
Qed.

(** X14: undo can be repeated: [k] executions with the undo button pressed
    (on a page that shows the image and reports no click) drop the last [k]
    annotations and keep the others in order; with [k] larger than the list
    the list ends empty. *)
Theorem X14_repeated_undo
  (w : widgets) (label : string) (k : nat) (st : session_state F) :
  shows_image (F:=F) w = true ->
  (forall cx cy, clicked_coords w <> Clicked cx cy) ->
  annotations (session (repeat (press w UndoLast label) k) st)
  = firstn (List.length (annotations st) - k) (annotations st).
Proof.
  intros Hs Hc. unfold session. revert st.
  induction k as [|k IH]; intros st.
  - cbn. rewrite Nat.sub_0_r. now rewrite firstn_all.
  - cbn [repeat fold_left]. rewrite IH.
    destruct (annotations st) as [|a anns] eqn:E.
    + rewrite undo_on_empty by assumption. reflexivity.
    + destruct (undo_runs w label st) as (wd & ht & _ & ->); auto.
      { rewrite E. discriminate. }
      cbn [state_of annotations]. rewrite E.
      rewrite removelast_firstn_len, firstn_firstn.
      rewrite length_firstn. f_equal. cbn [List.length]. lia.
Qed.

End Sessions.

(** X5: of the statements of [main], only the layout of lines 79-88 can
    raise (the calls into the imaging and drawing libraries are taken to
    succeed).  An execution ends in that exception exactly when an image is
    uploaded, the clear button has not fired before, and lines 79-88 raise
    for the image; the annotation list and the pending point are then as
    before the execution.  Lines 79-88 raise exactly when line 79 or line 81
    raises (a width of 0, or a product [int()] rejects), when the display
    width is 0, or when the computed display height is 0. *)
Theorem X5_raises_exactly_on_layout
  (F : Type) (HF : PyFloat F) (w : widgets) (st : session_state F) :
  is_raised (main w st)
  = negb (clear_fires w st) && layout_fails (F:=F) w /\
  (is_raised (main w st) = true ->
   annotations (state_of (main w st)) = annotations st /\
   current_point (state_of (main w st)) = current_point st /\
   awaiting_label (state_of (main w st)) = awaiting_label st) /\
  (layout_fails (F:=F) w = true <->
   exists width height,
     uploaded_file w = Some (width, height) /\
     (display_size (F:=F) width height (display_width_slider w) = None \/
      display_width_slider w = 0 \/
      display_size (F:=F) width height (display_width_slider w) = Some 0)).
Proof.
  split; [apply is_raised_main|]. split; [apply raised_keeps_state|].
  unfold layout_fails, layout, scale_factors, truediv.
  destruct (uploaded_file w) as [[width height]|].
  - destruct (display_size width height (display_width_slider w))
      as [dh|] eqn:D.
    + destruct (Z.eqb_spec (display_width_slider w) 0) as [E|E].
      * split; [|reflexivity]. intros _. exists width, height. auto.
      * destruct (Z.eqb_spec dh 0) as [E'|E'].
        -- split; [|reflexivity]. intros _. exists width, height.
           subst dh. auto.
        -- split; [discriminate|].
           intros (wd & ht & [= <- <-] & [N | [N | N]]);
             [congruence | contradiction | congruence].
    + split; [|reflexivity]. intros _. exists width, height. auto.
  - split; [discriminate|]. intros (wd & ht & N & _). discriminate N.
Qed.

(** X5 in binary64: a 401x1 upload shown 400 wide and a 412x1 upload shown
    412 wide both get the display height 0, and the execution raises. *)
Lemma X5_witness :
  display_size (F:=float) 401 1 400 = Some 0 /\
  is_raised (main page_401x1 (initial_state float)) = true /\
  display_size (F:=float) 412 1 412 = Some 0 /\
  is_raised (main page_412x1 (initial_state float)) = true.
Proof.
  assert (D1 : display_size (F:=float) 401 1 400 = Some 0)
    by (vm_compute; reflexivity).
  assert (D2 : display_size (F:=float) 412 1 412 = Some 0)
    by (vm_compute; reflexivity).
  assert (L1 : layout_fails (F:=float) page_401x1 = true).
  { apply (proj2 (proj2 (X5_raises_exactly_on_layout float binary64
                           page_401x1 (initial_state float)))).
    exists 401, 1. split; [reflexivity|]. right. right. exact D1. }
  assert (L2 : layout_fails (F:=float) page_412x1 = true).
  { apply (proj2 (proj2 (X5_raises_exactly_on_layout float binary64
                           page_412x1 (initial_state float)))).
    exists 412, 1. split; [reflexivity|]. right. right. exact D2. }
  split; [exact D1|]. split.
  - rewrite (proj1 (X5_raises_exactly_on_layout float binary64 page_401x1
                      (initial_state float))).
    rewrite L1. reflexivity.
  - split; [exact D2|].
    rewrite (proj1 (X5_raises_exactly_on_layout float binary64 page_412x1
                      (initial_state float))).
    rewrite L2. reflexivity.
Defined.

(** X4 on the first execution of a session. *)
Lemma X4_witness :
  main page_800x600 (initial_state float)
  = Completed {| annotations := [];
                 image_width := 800;
                 image_height := 600;
                 display_width := 400;
                 awaiting_label := false;
                 current_point := None |} /\
  display_width {| annotations := @nil (annotation float);
                   image_width := 800;
                   image_height := 600;
                   display_width := 400;
                   awaiting_label := false;
                   current_point := None |}
  = display_width_slider page_800x600.
Proof.
  assert (E : main page_800x600 (initial_state float)
              = Completed {| annotations := [];
                             image_width := 800;
                             image_height := 600;
                             display_width := 400;
                             awaiting_label := false;
                             current_point := None |})
    by (vm_compute; reflexivity).
  split; [exact E|].
  exact (proj2 (proj2 (proj2
           (@X4_completed_changes_nothing float binary64 page_800x600
              (initial_state float) _ E)))).
Defined.

(** X6 with (100, 120) pending and a click at (10, 20). *)
Lemma X6_witness :
  awaiting_label one_stored_one_pending = true /\
  main (click page_800x600 10 20) one_stored_one_pending
  = main (without_click (click page_800x600 10 20)) one_stored_one_pending.
Proof.
  assert (A : awaiting_label one_stored_one_pending = true)
    by (vm_compute; reflexivity).
  split; [exact A|].
  exact (@X6_click_ignored_while_pending float binary64
           (click page_800x600 10 20) one_stored_one_pending 10 20
           eq_refl A).
Defined.

(** X7 on the first click of a session, with the undo button pressed in
    the same execution. *)
Lemma X7_witness :
  main (press (click page_800x600 100 100) UndoLast EmptyString)
       (initial_state float)
  = Rerun {| annotations := [];
             image_width := 800;
             image_height := 600;
             display_width := 400;
             awaiting_label := true;
             current_point := Some (to_original 2%float 2%float 100 100) |}.
Proof.
  refine (@X7_click_selects_point float binary64
            (press (click page_800x600 100 100) UndoLast EmptyString)
            (initial_state float)
            800 600 300 2%float 2%float 100 100 eq_refl _ eq_refl eq_refl
            eq_refl).
  vm_compute. reflexivity.
Defined.

(** X8 with (100, 120) pending: the manual entry (400, 300) replaces it. *)
Lemma X8_witness :
  current_point one_stored_one_pending = Some (100%float, 120%float) /\
  current_point (state_of (main manual_page one_stored_one_pending))
  = Some (of_int 400, of_int 300).
Proof.
  split; [vm_compute; reflexivity|].
  rewrite (@X8_set_point_overrides_pending float binary64 manual_page
             one_stored_one_pending 800 600 eq_refl);
    [reflexivity | vm_compute; reflexivity | reflexivity | reflexivity].
Defined.

(** X9 with a point pending and the submit button pressed on a page
    without upload: nothing is added. *)
Lemma X9_witness :
  main empty_page one_stored_one_pending
  = Completed {| annotations := annotations one_stored_one_pending;
                 image_width := image_width one_stored_one_pending;
                 image_height := image_height one_stored_one_pending;
                 display_width := 1000;
                 awaiting_label := awaiting_label one_stored_one_pending;
                 current_point := current_point one_stored_one_pending |}.
Proof.
  rewrite (@X9_no_upload_only_sidebar float binary64 empty_page
             one_stored_one_pending eq_refl).
  reflexivity.
Defined.

(** X14: two undos after three adds leave the first annotation. *)
Lemma X14_witness :
  annotations
    (session (repeat (press page_800x600 UndoLast EmptyString) 2)
             (session three_adds (initial_state float)))
  = firstn 1 (annotations (session three_adds (initial_state float))).
Proof.
  rewrite (@X14_repeated_undo float binary64 page_800x600 EmptyString 2
             (session three_adds (initial_state float)));
    [vm_compute; reflexivity | vm_compute; reflexivity
    | intros cx cy; discriminate].
Defined.

(** ** The overlay in exact arithmetic *)

(** X13: in exact arithmetic, a point clicked at one display size and drawn
    at another (the display-width slider moved in between) keeps its
    relative position on the displayed image: the overlay draws it at [p]
    with [p_x / display_width' = click_x / display_width] and
    [p_y / display_height' = click_y / display_height]. *)
Theorem X13_overlay_keeps_relative_position
  (width height dw dh dw' dh' : Z) (sx sy sx' sy' : Q)
  (cx cy : Z) (label ts : string) :
  0 < width -> 0 < height ->
  scale_factors width height dw dh = Some (sx, sy) ->
  scale_factors width height dw' dh' = Some (sx', sy') ->
  exists p : Q * Q,
    overlay sx' sy'
      (new_row (fst (to_original sx sy cx cy)) (snd (to_original sx sy cx cy))
               label ts)
    = [(p, label)] /\
    (fst p / inject_Z dw' == inject_Z cx / inject_Z dw)%Q /\
    (snd p / inject_Z dh' == inject_Z cy / inject_Z dh)%Q.
Proof.
  intros Hw Hh S S'.
  apply scale_factors_some in S, S'.
  destruct S as (Ndw & Ndh & -> & ->), S' as (Ndw' & Ndh' & -> & ->).
  eexists. split; [reflexivity|].
  assert (Nw : ~ (inject_Z width == 0)%Q) by (apply inject_Z_nonzero; lia).
  assert (Nh : ~ (inject_Z height == 0)%Q) by (apply inject_Z_nonzero; lia).
  apply inject_Z_nonzero in Ndw, Ndh, Ndw', Ndh'.
  split; cbn; field; auto.
Qed.

(** X13: clicked at (100, 100) on 400x300, drawn on 800x600. *)
Lemma X13_witness :
  exists p : Q * Q,
    overlay (inject_Z 800 / inject_Z 800)%Q (inject_Z 600 / inject_Z 600)%Q
      (new_row
         (fst (to_original (inject_Z 800 / inject_Z 400)%Q
                           (inject_Z 600 / inject_Z 300)%Q 100 100))
         (snd (to_original (inject_Z 800 / inject_Z 400)%Q
                           (inject_Z 600 / inject_Z 300)%Q 100 100))
         "first" EmptyString)
    = [(p, "first"%string)] /\
    (fst p / inject_Z 800 == inject_Z 100 / inject_Z 400)%Q /\
    (snd p / inject_Z 600 == inject_Z 100 / inject_Z 300)%Q.
Proof.
  refine (X13_overlay_keeps_relative_position 800 600 400 300 800 600
            _ _ _ _ 100 100 "first" EmptyString _ _ _ _);
    [lia | lia | reflexivity | reflexivity].
Defined.

(** ** More on the exported file *)

Lemma repr_float_injective (a b : float) : repr_float a = repr_float b -> a = b.
Proof.
  intros E. apply (f_equal read_float) in E.
  rewrite !read_float_repr in E. now injection E.
Qed.

Lemma row_fields_injective (r1 r2 : annotation float) :
  row_fields r1 = row_fields r2 -> r1 = r2.
Proof.
  destruct r1 as [x1 y1 l1 t1], r2 as [x2 y2 l2 t2]. unfold row_fields. cbn.
  intros [= Ex Ey -> ->].
  apply repr_float_injective in Ex, Ey. now subst.
Qed.

Lemma rows_injective (df1 df2 : list (annotation float)) :
  map row_fields df1 = map row_fields df2 -> df1 = df2.
Proof.
  revert df2.
  induction df1 as [|r1 df1 IH]; intros [|r2 df2] E; try discriminate.
  - reflexivity.
  - cbn [map] in E.
    pose proof (f_equal (@hd _ []) E) as Er.
    pose proof (f_equal (@tl _) E) as Et. cbn [hd tl] in Er, Et.
    apply row_fields_injective in Er. subst r2. f_equal. now apply IH.
Qed.


